(** * MPA: the Python HTTP wrapper around the ExprPredictor tools

    A shallow embedding of [mcp_server.py]: the configuration manager
    [MCPConfig], the backend invoker [MCPBackend] with its output scraper,
    the HTTP route handlers and the entry point, followed by the
    properties of the specification that concern them and by further
    properties read off the code.

    Conventions of the embedding.
    - A Python [str] is the list of its code points; [bytes] is a list of
      bytes; the values that YAML and JSON produce are the trees of [value].
    - A function that can raise returns a [result]; an [async] method of the
      backend is a computation in [IO], which threads the trace of what it
      did to the operating system (spawn, wait, kill) and reads the fate of
      the spawned process from the [world] it runs in.
    - Library functions are modelled by what they compute ([str.strip],
      [bytes.decode], [json.loads], [pathlib]); the interpreter's resource
      limits (recursion depth, integer digit limit) and the logging calls
      are left out. *)

From Stdlib Require Import ZArith NArith List String Ascii Bool Lia.
From Stdlib.Strings Require Import Byte.
Import ListNotations.
Local Open Scope list_scope.

(** ** Python strings *)

Module Py.

(** A [str]: its code points. *)
Definition pystr : Type := list N.

(** An ASCII literal of the source, as a [str]. *)
Definition str (s : string) : pystr :=
  List.map N_of_ascii (list_ascii_of_string s).
Arguments str s%_string.

Definition chr (a : ascii) : N := N_of_ascii a.
Arguments chr a%_char.

Fixpoint str_eqb (a b : pystr) : bool :=
  match a, b with
  | [], [] => true
  | x :: a', y :: b' => N.eqb x y && str_eqb a' b'
  | _, _ => false
  end.

(** [str.isspace] on one code point: the characters [str.strip] removes. *)
Definition isspace (c : N) : bool :=
  ((0x09 <=? c) && (c <=? 0x0D) || (0x1C <=? c) && (c <=? 0x20)
   || (c =? 0x85) || (c =? 0xA0) || (c =? 0x1680)
   || (0x2000 <=? c) && (c <=? 0x200A)
   || (c =? 0x2028) || (c =? 0x2029) || (c =? 0x202F) || (c =? 0x205F)
   || (c =? 0x3000))%N.

Fixpoint lstrip (s : pystr) : pystr :=
  match s with
  | c :: s' => if isspace c then lstrip s' else s
  | [] => []
  end.

Definition rstrip (s : pystr) : pystr := rev (lstrip (rev s)).

(** [s.strip()] *)
Definition strip (s : pystr) : pystr := rstrip (lstrip s).

(** [s.startswith(prefix)] *)
Fixpoint startswith (s prefix : pystr) : bool :=
  match prefix, s with
  | [], _ => true
  | p :: prefix', c :: s' => N.eqb c p && startswith s' prefix'
  | _ :: _, [] => false
  end.

(** [s.endswith(suffix)] *)
Definition endswith (s suffix : pystr) : bool :=
  startswith (rev s) (rev suffix).

(** [s.split(sep)] for a separator of one character (the source splits on
    a newline and on a dot): never the empty list. *)
Fixpoint split (s : pystr) (sep : N) : list pystr :=
  match s with
  | [] => [[]]
  | c :: s' =>
      if N.eqb c sep then [] :: split s' sep
      else match split s' sep with
           | piece :: pieces => (c :: piece) :: pieces
           | [] => [[c]]
           end
  end.

(** [sep.join(parts)] *)
Fixpoint join (sep : pystr) (parts : list pystr) : pystr :=
  match parts with
  | [] => []
  | [p] => p
  | p :: rest => p ++ sep ++ join sep rest
  end.

(** [needle in haystack] for two strings. *)
Fixpoint contains (haystack needle : pystr) : bool :=
  startswith haystack needle
  || match haystack with
     | [] => false
     | _ :: rest => contains rest needle
     end.

(** Decimal digits of a natural number, as [str(n)] prints them. *)
Fixpoint digits_fuel (fuel : nat) (n : N) (acc : pystr) : pystr :=
  match fuel with
  | O => acc
  | S fuel' =>
      let acc' := (48 + n mod 10)%N :: acc in
      if (n <? 10)%N then acc' else digits_fuel fuel' (n / 10)%N acc'
  end.

Definition str_of_N (n : N) : pystr := digits_fuel (S (N.to_nat (N.log2 n))) n [].

Definition str_of_Z (z : Z) : pystr :=
  match z with
  | Zneg p => chr "-" :: str_of_N (Npos p)
  | _ => str_of_N (Z.to_N z)
  end.

(** ** Values: what [yaml.safe_load] and [json.loads] build

    A float is kept as the literal it was read from: no operation of the
    program looks inside a number.  A [dict] keeps its entries in insertion
    order, keyed by strings. *)

#[warnings="-register-all"]
Inductive value : Type :=
| VNone
| VBool (b : bool)
| VInt (n : Z)
| VFloat (literal : pystr)
| VStr (s : pystr)
| VList (items : list value)
| VDict (entries : list (pystr * value)).

Definition dict : Type := list (pystr * value).

(** [d.get(k)] *)
Fixpoint dict_get (k : pystr) (d : dict) : option value :=
  match d with
  | [] => None
  | (k', v) :: d' => if str_eqb k k' then Some v else dict_get k d'
  end.

(** [k in d] *)
Definition dict_in (k : pystr) (d : dict) : bool :=
  match dict_get k d with Some _ => true | None => false end.

(** [d[k] = v]: an existing key keeps its place. *)
Fixpoint dict_set (k : pystr) (v : value) (d : dict) : dict :=
  match d with
  | [] => [(k, v)]
  | (k', v') :: d' =>
      if str_eqb k k' then (k', v) :: d' else (k', v') :: dict_set k v d'
  end.

Definition type_name (v : value) : pystr :=
  match v with
  | VNone => str "NoneType"
  | VBool _ => str "bool"
  | VInt _ => str "int"
  | VFloat _ => str "float"
  | VStr _ => str "str"
  | VList _ => str "list"
  | VDict _ => str "dict"
  end.

(** ** Exceptions and results

    An exception is its class and the text [str(e)] gives.  The texts of
    the exceptions the interpreter raises follow CPython 3.11. *)

Inductive exn : Type :=
| ValueError (msg : pystr)
| RuntimeError (msg : pystr)
| TypeError (msg : pystr)
| KeyError (msg : pystr)
| AttributeError (msg : pystr)
| UnicodeDecodeError (msg : pystr)
| FileNotFoundError (msg : pystr)
| TimeoutError (msg : pystr)
| OtherException (class msg : pystr).

(** [str(e)] *)
Definition str_exn (e : exn) : pystr :=
  match e with
  | ValueError m | RuntimeError m | TypeError m | KeyError m
  | AttributeError m | UnicodeDecodeError m | FileNotFoundError m
  | TimeoutError m | OtherException _ m => m
  end.

Inductive result (A : Type) : Type :=
| Ok (a : A)
| Raise (e : exn).
Arguments Ok {A} a.
Arguments Raise {A} e.

Definition rbind {A B : Type} (r : result A) (k : A -> result B) : result B :=
  match r with
  | Ok a => k a
  | Raise e => Raise e
  end.

End Py.
Export Py.

Declare Scope py_scope.
Delimit Scope py_scope with py.
Notation "x <- r ;; k" := (rbind r (fun x => k))
  (at level 61, r at next level, right associativity) : py_scope.

Local Open Scope N_scope.

(** ** [bytes.decode()]: strict UTF-8

    The decoder of CPython: shortest forms only, no surrogates, nothing
    above U+10FFFF.  A failure is the [UnicodeDecodeError] with the text
    CPython gives it (the offending range and the reason). *)

Module Utf8.

Definition bytes : Type := list byte.

(** An ASCII literal, as [bytes]. *)
Definition bytes_of (s : string) : bytes := list_byte_of_string s.
Arguments bytes_of s%_string.

Definition hex_digit (n : N) : N :=
  if n <? 10 then 48 + n else 87 + n.

Definition decode_error (object : list N) (start stop : N) (reason : pystr)
  : exn :=
  UnicodeDecodeError
    (if stop =? start + 1 then
       str "'utf-8' codec can't decode byte 0x"
       ++ [hex_digit (nth (N.to_nat start) object 0 / 16);
           hex_digit (nth (N.to_nat start) object 0 mod 16)]
       ++ str " in position " ++ str_of_N start ++ str ": " ++ reason
     else
       str "'utf-8' codec can't decode bytes in position "
       ++ str_of_N start ++ str "-" ++ str_of_N (stop - 1)
       ++ str ": " ++ reason).

Definition continuation (b : N) : bool := (0x80 <=? b) && (b <=? 0xBF).

Inductive outcome : Type :=
| Decoded (text : pystr)
| Invalid (start stop : N) (reason : pystr).

Definition emit (c : N) (o : outcome) : outcome :=
  match o with
  | Decoded text => Decoded (c :: text)
  | Invalid a b r => Invalid a b r
  end.

Definition invalid_start (pos : N) : outcome :=
  Invalid pos (pos + 1) (str "invalid start byte").
Definition invalid_continuation (pos n : N) : outcome :=
  Invalid pos (pos + n) (str "invalid continuation byte").
Definition unexpected_end (pos n : N) : outcome :=
  Invalid pos (pos + n) (str "unexpected end of data").

(** The bytes from position [pos] on. *)
Fixpoint utf8 (bs : list N) (pos : N) : outcome :=
  match bs with
  | [] => Decoded []
  | ch :: rest =>
      if ch <? 0x80 then emit ch (utf8 rest (pos + 1))
      else if ch <? 0xC2 then invalid_start pos
      else if ch <? 0xE0 then
        match rest with
        | [] => unexpected_end pos 1
        | ch2 :: rest2 =>
            if negb (continuation ch2) then invalid_continuation pos 1
            else emit ((ch - 0xC0) * 64 + (ch2 - 0x80)) (utf8 rest2 (pos + 2))
        end
      else if ch <? 0xF0 then
        match rest with
        | [] => unexpected_end pos 1
        | ch2 :: rest2 =>
            if negb (continuation ch2)
               || (if ch2 <? 0xA0 then ch =? 0xE0 else ch =? 0xED)
            then invalid_continuation pos 1
            else
              match rest2 with
              | [] => unexpected_end pos 2
              | ch3 :: rest3 =>
                  if negb (continuation ch3) then invalid_continuation pos 2
                  else emit ((ch - 0xE0) * 4096 + (ch2 - 0x80) * 64
                             + (ch3 - 0x80))
                            (utf8 rest3 (pos + 3))
              end
        end
      else if ch <? 0xF5 then
        match rest with
        | [] => unexpected_end pos 1
        | ch2 :: rest2 =>
            if negb (continuation ch2)
               || (if ch2 <? 0x90 then ch =? 0xF0 else ch =? 0xF4)
            then invalid_continuation pos 1
            else
              match rest2 with
              | [] => unexpected_end pos 2
              | ch3 :: rest3 =>
                  if negb (continuation ch3) then invalid_continuation pos 2
                  else
                    match rest3 with
                    | [] => unexpected_end pos 3
                    | ch4 :: rest4 =>
                        if negb (continuation ch4)
                        then invalid_continuation pos 3
                        else emit ((ch - 0xF0) * 262144 + (ch2 - 0x80) * 4096
                                   + (ch3 - 0x80) * 64 + (ch4 - 0x80))
                                  (utf8 rest4 (pos + 4))
                    end
              end
        end
      else invalid_start pos
  end.

(** [b.decode()] *)
Definition decode (b : bytes) : result pystr :=
  let object := List.map Byte.to_N b in
  match utf8 object 0 with
  | Decoded text => Ok text
  | Invalid start stop reason => Raise (decode_error object start stop reason)
  end.

End Utf8.
Export Utf8.

(** ** [json.loads]

    The decoder of the standard library in its default configuration
    (the C scanner, [strict] strings): recursive descent, here on fuel;
    [loads] gives it one unit more than the text has characters, which
    is enough for every text ([loads_fuel] below).  [None] stands for
    [JSONDecodeError]. *)

Module Json.

(** The whitespace of the JSON grammar. *)
Definition is_ws (c : N) : bool :=
  (c =? 0x20) || (c =? 0x09) || (c =? 0x0A) || (c =? 0x0D).

Fixpoint skip_ws (s : pystr) : pystr :=
  match s with
  | c :: s' => if is_ws c then skip_ws s' else s
  | [] => []
  end.

Definition is_digit (c : N) : bool := (48 <=? c) && (c <=? 57).

Fixpoint span_digits (s : pystr) : pystr * pystr :=
  match s with
  | c :: s' =>
      if is_digit c then let '(ds, r) := span_digits s' in (c :: ds, r)
      else ([], s)
  | [] => ([], [])
  end.

Definition hex_value (c : N) : option N :=
  if is_digit c then Some (c - 48)
  else if (97 <=? c) && (c <=? 102) then Some (c - 87)
  else if (65 <=? c) && (c <=? 70) then Some (c - 55)
  else None.

Definition hex4 (a b c d : N) : option N :=
  match hex_value a, hex_value b, hex_value c, hex_value d with
  | Some x, Some y, Some z, Some w => Some (((x * 16 + y) * 16 + z) * 16 + w)
  | _, _, _, _ => None
  end.

Definition is_high_surrogate (c : N) : bool := (0xD800 <=? c) && (c <=? 0xDBFF).
Definition is_low_surrogate (c : N) : bool := (0xDC00 <=? c) && (c <=? 0xDFFF).

(** The character a one-letter escape stands for (0x22 is the double quote,
    0x5C the backslash). *)
Definition simple_escape (c : N) : option N :=
  if c =? 0x22 then Some 0x22
  else if c =? 0x5C then Some 0x5C
  else if c =? chr "/" then Some (chr "/")
  else if c =? chr "b" then Some 0x08
  else if c =? chr "f" then Some 0x0C
  else if c =? chr "n" then Some 0x0A
  else if c =? chr "r" then Some 0x0D
  else if c =? chr "t" then Some 0x09
  else None.

(** The characters of a string: the text after an opening quote, up to the
    closing one.  Each character comes with a mark that tells whether a
    [\u] escape wrote it; [acc] holds what was read so far, last first. *)
Fixpoint scan_chars (s : pystr) (acc : list (N * bool))
  : option (list (N * bool) * pystr) :=
  match s with
  | [] => None
  | c :: r =>
      if c =? 0x22 then Some (rev acc, r)
      else if c <? 0x20 then None
      else if c =? 0x5C then
        match r with
        | [] => None
        | e :: r1 =>
            if e =? chr "u" then
              match r1 with
              | h1 :: h2 :: h3 :: h4 :: r2 =>
                  match hex4 h1 h2 h3 h4 with
                  | Some u => scan_chars r2 ((u, true) :: acc)
                  | None => None
                  end
              | _ => None
              end
            else
              match simple_escape e with
              | Some x => scan_chars r1 ((x, false) :: acc)
              | None => None
              end
        end
      else scan_chars r ((c, false) :: acc)
  end.

(** Two [\u] escapes in a row that hold a high and a low surrogate stand
    for one character. *)
Fixpoint join_surrogates (chars : list (N * bool)) : pystr :=
  match chars with
  | [] => []
  | (c, escaped) :: rest =>
      match rest with
      | (lo, true) :: rest' =>
          if escaped && is_high_surrogate c && is_low_surrogate lo
          then (0x10000 + (c - 0xD800) * 1024 + (lo - 0xDC00))
               :: join_surrogates rest'
          else c :: join_surrogates rest
      | _ => c :: join_surrogates rest
      end
  end.

(** [scanstring] *)
Definition scanstring (s : pystr) : option (pystr * pystr) :=
  match scan_chars s [] with
  | Some (chars, r) => Some (join_surrogates chars, r)
  | None => None
  end.

Fixpoint int_of_digits (ds : pystr) (acc : Z) : Z :=
  match ds with
  | [] => acc
  | d :: ds' => int_of_digits ds' (10 * acc + Z.of_N (d - 48))%Z
  end.

(** The integer part of a number: an optional minus sign, then either a
    single zero or a non-zero digit followed by digits. *)
Definition match_integer (s : pystr) : option (pystr * pystr) :=
  let '(sign, body) :=
    match s with
    | c :: s' => if c =? chr "-" then ([c], s') else ([], s)
    | [] => ([], [])
    end in
  match body with
  | c :: body' =>
      if c =? chr "0" then Some (sign ++ [c], body')
      else if is_digit c then
        let '(ds, r) := span_digits body' in Some (sign ++ c :: ds, r)
      else None
  | [] => None
  end.

(** The optional fraction: a dot and at least one digit. *)
Definition match_fraction (s : pystr) : pystr * pystr :=
  match s with
  | c :: s' =>
      if c =? chr "." then
        match span_digits s' with
        | ([], _) => ([], s)
        | (ds, r) => (c :: ds, r)
        end
      else ([], s)
  | [] => ([], [])
  end.

(** The optional exponent: e or E, an optional sign, at least one digit. *)
Definition match_exponent (s : pystr) : pystr * pystr :=
  match s with
  | c :: s' =>
      if (c =? chr "e") || (c =? chr "E") then
        let '(sign, body) :=
          match s' with
          | g :: s'' =>
              if (g =? chr "-") || (g =? chr "+") then ([g], s'') else ([], s')
          | [] => ([], [])
          end in
        match span_digits body with
        | ([], _) => ([], s)
        | (ds, r) => (c :: sign ++ ds, r)
        end
      else ([], s)
  | [] => ([], [])
  end.

Definition match_number (s : pystr) : option (value * pystr) :=
  match match_integer s with
  | None => None
  | Some (integer, r) =>
      let '(frac, r1) := match_fraction r in
      let '(exp, r2) := match_exponent r1 in
      match frac, exp with
      | [], [] =>
          Some (VInt (match integer with
                      | c :: ds =>
                          if c =? chr "-" then (- int_of_digits ds 0)%Z
                          else int_of_digits integer 0%Z
                      | [] => 0%Z
                      end), r2)
      | _, _ => Some (VFloat (integer ++ frac ++ exp), r2)
      end
  end.

(** A keyword at the head of the text. *)
Definition keyword (s : pystr) (word : string) (v : value)
  : option (value * pystr) :=
  if startswith s (str word)
  then Some (v, skipn (String.length word) s)
  else None.

Definition first_of {A : Type} (a b : option A) : option A :=
  match a with Some _ => a | None => b end.

(** A value that is neither a string nor an object nor an array, in the
    order the scanner tries them. *)
Definition atom (s : pystr) : option (value * pystr) :=
  first_of (keyword s "null" VNone)
  (first_of (keyword s "true" (VBool true))
  (first_of (keyword s "false" (VBool false))
  (first_of (match_number s)
  (first_of (keyword s "NaN" (VFloat (str "NaN")))
  (first_of (keyword s "Infinity" (VFloat (str "Infinity")))
            (keyword s "-Infinity" (VFloat (str "-Infinity")))))))).

(** [scan_once]: one value at the head of the text; with it the loops of
    [JSONObject] (entered after the quote that opens a key) and of
    [JSONArray] (entered at a value). *)
Fixpoint scan_once (fuel : nat) (s : pystr) {struct fuel}
  : option (value * pystr) :=
  match fuel with
  | O => None
  | S fuel' =>
      match s with
      | [] => None
      | c :: r =>
          if c =? 0x22 then
            match scanstring r with
            | Some (text, r') => Some (VStr text, r')
            | None => None
            end
          else if c =? chr "{" then
            match skip_ws r with
            | c' :: r' =>
                if c' =? chr "}" then Some (VDict [], r')
                else if c' =? 0x22 then JSONObject fuel' [] r'
                else None
            | [] => None
            end
          else if c =? chr "[" then
            match skip_ws r with
            | c' :: r' =>
                if c' =? chr "]" then Some (VList [], r')
                else JSONArray fuel' [] (c' :: r')
            | [] => None
            end
          else atom s
      end
  end
with JSONObject (fuel : nat) (pairs : dict) (s : pystr) {struct fuel}
  : option (value * pystr) :=
  match fuel with
  | O => None
  | S fuel' =>
      match scanstring s with
      | None => None
      | Some (key, r1) =>
          match skip_ws r1 with
          | c :: r2 =>
              if c =? chr ":" then
                match scan_once fuel' (skip_ws r2) with
                | None => None
                | Some (v, r3) =>
                    let pairs' := dict_set key v pairs in
                    match skip_ws r3 with
                    | c' :: r4 =>
                        if c' =? chr "}" then Some (VDict pairs', r4)
                        else if c' =? chr "," then
                          match skip_ws r4 with
                          | q :: r5 =>
                              if q =? 0x22
                              then JSONObject fuel' pairs' r5
                              else None
                          | [] => None
                          end
                        else None
                    | [] => None
                    end
                end
              else None
          | [] => None
          end
      end
  end
with JSONArray (fuel : nat) (items : list value) (s : pystr) {struct fuel}
  : option (value * pystr) :=
  match fuel with
  | O => None
  | S fuel' =>
      match scan_once fuel' s with
      | None => None
      | Some (v, r1) =>
          match skip_ws r1 with
          | c :: r2 =>
              if c =? chr "]" then Some (VList (items ++ [v]), r2)
              else if c =? chr ","
              then JSONArray fuel' (items ++ [v]) (skip_ws r2)
              else None
          | [] => None
          end
      end
  end.

(** Three notions the properties of the decoder are stated with: a text
    that goes on with something that ends a number; a value that is a
    string, an array or an object; the first character of a keyword. *)
Definition delimits (r : pystr) : bool :=
  match r with
  | c :: _ => is_ws c || (c =? chr ",") || (c =? chr "}") || (c =? chr "]")
  | [] => false
  end.

Definition closed (v : value) : bool :=
  match v with
  | VStr _ | VList _ | VDict _ => true
  | _ => false
  end.

Definition initial (word : string) : N :=
  match word with
  | String a _ => N_of_ascii a
  | EmptyString => 0
  end.

(** [json.loads(s)]: one value, whitespace around it, nothing else; a text
    that starts with a byte order mark is refused. *)
Definition loads (s : pystr) : option value :=
  if startswith s [0xFEFF] then None
  else
    match scan_once (S (List.length s)) (skip_ws s) with
    | Some (v, r) =>
        match skip_ws r with
        | [] => Some v
        | _ :: _ => None
        end
    | None => None
    end.

End Json.

(** ** [pathlib.Path] on POSIX

    A path is its root (empty, one slash, or exactly two) and its
    components; what is on disk is asked of a [filesystem]. *)

Module Pathlib.

Record Path : Type := { root : pystr; parts : list pystr }.

Definition splitroot (s : pystr) : pystr * pystr :=
  match s with
  | 47 :: 47 :: 47 :: _ => (str "/", s)
  | 47 :: 47 :: _ => (str "//", s)
  | 47 :: _ => (str "/", s)
  | _ => ([], s)
  end.

Definition is_component (x : pystr) : bool :=
  negb (str_eqb x []) && negb (str_eqb x (str ".")).

(** [Path(s)] for a string. *)
Definition parse (s : pystr) : Path :=
  {| root := fst (splitroot s);
     parts := filter is_component (Py.split s (chr "/")) |}.

(** [Path(v)]: only a string is a path. *)
Definition Path_of (v : value) : result Path :=
  match v with
  | VStr s => Ok (parse s)
  | _ => Raise (TypeError (str "expected str, bytes or os.PathLike object, not "
                           ++ type_name v))
  end.

(** [p.is_absolute()] *)
Definition is_absolute (p : Path) : bool := negb (str_eqb (root p) []).

(** [p / q] *)
Definition joinpath (p q : Path) : Path :=
  if is_absolute q then q
  else {| root := root p; parts := parts p ++ parts q |}.

(** [str(p)] *)
Definition str_of_path (p : Path) : pystr :=
  match root p, parts p with
  | [], [] => str "."
  | r, ps => r ++ join (str "/") ps
  end.

(** What the constructor of the backend asks of the disk:
    [p.resolve()] and [p.exists()]. *)
Record filesystem : Type :=
  { resolve : Path -> Path;
    exists_ : Path -> bool }.

End Pathlib.
Export Pathlib.

(** ** [MCPConfig]: the configuration manager *)

Module MCPConfig.

(** [os.environ] *)
Definition environ : Type := list (pystr * pystr).

Fixpoint getenv (env : environ) (k : pystr) : option pystr :=
  match env with
  | [] => None
  | (k', v) :: env' => if str_eqb k k' then Some v else getenv env' k
  end.

(** [try: body  except Exception as e: handler(e)] *)
Definition try_except {A : Type} (body : result A) (handler : exn -> result A)
  : result A :=
  match body with
  | Ok a => Ok a
  | Raise e => handler e
  end.

Definition _default_config : value :=
  VDict
    [ (str "server",
       VDict [ (str "host", VStr (str "0.0.0.0"));
               (str "port", VInt 8080);
               (str "debug", VBool false) ]);
      (str "mcp",
       VDict [ (str "executable_path", VStr (str "./mcp_demo"));
               (str "working_directory", VStr (str "."));
               (str "timeout", VInt 30) ]);
      (str "logging", VDict [ (str "level", VStr (str "INFO")) ]);
      (str "tools", VDict [ (str "discovery_enabled", VBool true) ]) ].

(** [_load_config]: [file] is what opening [config_path] and
    [yaml.safe_load] of it come to, a value or an exception. *)
Definition _load_config (file : result value) : result value :=
  try_except file
    (fun e =>
       match e with
       | FileNotFoundError _ => Ok _default_config
       | _ => Ok _default_config
       end).

(** [v[k]] for a string [k]. *)
Definition getitem (v : value) (k : pystr) : result value :=
  match v with
  | VDict d =>
      match dict_get k d with
      | Some x => Ok x
      | None => Raise (KeyError (str "'" ++ k ++ str "'"))
      end
  | VStr _ => Raise (TypeError (str "string indices must be integers, not 'str'"))
  | VList _ =>
      Raise (TypeError (str "list indices must be integers or slices, not str"))
  | _ => Raise (TypeError (str "'" ++ type_name v
                           ++ str "' object is not subscriptable"))
  end.

(** [v[k] = x] for a string [k]. *)
Definition setitem (v : value) (k : pystr) (x : value) : result value :=
  match v with
  | VDict d => Ok (VDict (dict_set k x d))
  | VList _ =>
      Raise (TypeError (str "list indices must be integers or slices, not str"))
  | _ => Raise (TypeError (str "'" ++ type_name v
                           ++ str "' object does not support item assignment"))
  end.

(** [config[section][key] = x]: the section is looked up, updated, and (the
    update being in place in Python) seen through [config] afterwards. *)
Definition set_nested (config : value) (section key : pystr) (x : value)
  : result value :=
  (sec <- getitem config section ;;
   sec' <- setitem sec key x ;;
   setitem config section sec')%py.

Section Overrides.

(** The builtin [int] on a string; which digits and spaces it takes is the
    interpreter's business. *)
Variable int : pystr -> result Z.

Definition _apply_env_overrides (env : environ) (config : value)
  : result value :=
  (config <- match getenv env (str "MCP_SERVER_HOST") with
             | Some v => set_nested config (str "server") (str "host") (VStr v)
             | None => Ok config
             end ;;
   config <- match getenv env (str "MCP_SERVER_PORT") with
             | Some v =>
                 port <- int v ;;
                 set_nested config (str "server") (str "port") (VInt port)
             | None => Ok config
             end ;;
   config <- match getenv env (str "MCP_EXECUTABLE_PATH") with
             | Some v =>
                 set_nested config (str "mcp") (str "executable_path") (VStr v)
             | None => Ok config
             end ;;
   match getenv env (str "MCP_WORKING_DIR") with
   | Some v =>
       set_nested config (str "mcp") (str "working_directory") (VStr v)
   | None => Ok config
   end)%py.

(** [MCPConfig(config_path)] *)
Definition __init__ (file : result value) (env : environ) : result value :=
  (config <- _load_config file ;;
   _apply_env_overrides env config)%py.

End Overrides.

Fixpoint get_keys (keys : list pystr) (v default : value) : value :=
  match keys with
  | [] => v
  | k :: keys' =>
      match v with
      | VDict d =>
          match dict_get k d with
          | Some v' => get_keys keys' v' default
          | None => default
          end
      | _ => default
      end
  end.

(** [config.get(key, default)], dot notation. *)
Definition get (config : value) (key : pystr) (default : value) : value :=
  get_keys (Py.split key (chr ".")) config default.

End MCPConfig.

(** ** Subprocesses: the world an [async] method runs in

    A method of the backend spawns at most one process.  The [world] says
    what becomes of it; the trace records what the method asked for. *)

Module Asyncio.

Inductive stdio : Type := PIPE | Inherited.

(** The arguments of [asyncio.create_subprocess_exec]. *)
Record exec_call : Type :=
  { program : pystr;
    args : list pystr;
    cwd : Path;
    stdin : stdio;
    stdout : stdio;
    stderr : stdio }.

Inductive event : Type :=
| Spawn (call : exec_call)
| WaitFor (timeout : value)
| Kill.

Inductive world : Type :=
| SpawnFails (e : exn)
| WaitRaises (e : exn)
| Exits (returncode : Z) (out err : bytes).

(** [asyncio.wait_for] gave up: the timeout elapsed before the process
    completed. *)
Definition TimesOut : world := WaitRaises (TimeoutError []).

Definition IO (A : Type) : Type := world -> list event -> result A * list event.

Definition ret {A : Type} (a : A) : IO A := fun _ tr => (Ok a, tr).

Definition raise {A : Type} (e : exn) : IO A := fun _ tr => (Raise e, tr).

Definition bind {A B : Type} (m : IO A) (k : A -> IO B) : IO B :=
  fun w tr =>
    match m w tr with
    | (Ok a, tr') => k a w tr'
    | (Raise e, tr') => (Raise e, tr')
    end.

(** A computation that does nothing to the world. *)
Definition pure {A : Type} (r : result A) : IO A := fun _ tr => (r, tr).

(** [try: body  except Exception as e: handler(e)]; a handler that does not
    cover [e] raises it again. *)
Definition try_except {A : Type} (body : IO A) (handler : exn -> IO A) : IO A :=
  fun w tr =>
    match body w tr with
    | (Ok a, tr') => (Ok a, tr')
    | (Raise e, tr') => handler e w tr'
    end.

(** The handle of a spawned process: the process and its fate. *)
Definition Process : Type := world.

Definition create_subprocess_exec (call : exec_call) : IO Process :=
  fun w tr =>
    (match w with SpawnFails e => Raise e | _ => Ok w end, tr ++ [Spawn call]).

(** [asyncio.wait_for(process.communicate(), timeout=timeout)] *)
Definition wait_for_communicate (process : Process) (timeout : value)
  : IO (bytes * bytes) :=
  fun _ tr =>
    (match process with
     | Exits _ out err => Ok (out, err)
     | WaitRaises e | SpawnFails e => Raise e
     end, tr ++ [WaitFor timeout]).

(** [process.kill()] *)
Definition kill (process : Process) : IO unit :=
  fun _ tr => (Ok tt, tr ++ [Kill]).

(** [process.returncode]: [None] until the process has ended. *)
Definition returncode (process : Process) : option Z :=
  match process with
  | Exits rc _ _ => Some rc
  | _ => None
  end.

(** Run from an empty trace. *)
Definition run {A : Type} (m : IO A) (w : world) : result A * list event :=
  m w [].

End Asyncio.
Export Asyncio.

Declare Scope io_scope.
Delimit Scope io_scope with io.
Bind Scope io_scope with IO.
Notation "x <- m ;; k" := (Asyncio.bind m (fun x => k))
  (at level 61, m at next level, right associativity) : io_scope.
Notation "' pat <- m ;; k" := (Asyncio.bind m (fun x => match x with pat => k end))
  (at level 61, pat pattern, m at next level, right associativity) : io_scope.
Notation "m ;; k" := (Asyncio.bind m (fun _ => k))
  (at level 61, right associativity) : io_scope.

(** ** [MCPBackend]: the backend invoker and its output scraper *)

Module MCPBackend.

Record t : Type :=
  { config : value;
    working_directory : Path;
    executable_path : Path;
    timeout : value }.

(** [MCPBackend(config)] *)
Definition __init__ (fs : filesystem) (config : value) : result t :=
  (let executable_path :=
     MCPConfig.get config (str "mcp.executable_path") (VStr (str "./mcp_demo")) in
   let working_dir :=
     MCPConfig.get config (str "mcp.working_directory") (VStr (str ".")) in
   wd <- Path_of working_dir ;;
   let working_directory := resolve fs wd in
   exe <- Path_of executable_path ;;
   let executable_path :=
     if is_absolute exe then exe else joinpath working_directory exe in
   let timeout := MCPConfig.get config (str "mcp.timeout") (VInt 30) in
   if negb (exists_ fs executable_path) then
     Raise (RuntimeError (str "MCP executable not found: "
                          ++ str_of_path executable_path))
   else
     Ok {| config := config;
           working_directory := working_directory;
           executable_path := executable_path;
           timeout := timeout |})%py.

(** [x in v] for a string [x]. *)
Definition py_in (x : pystr) (v : value) : result bool :=
  match v with
  | VDict d => Ok (dict_in x d)
  | VList items =>
      Ok (existsb (fun i => match i with VStr s => str_eqb s x | _ => false end)
                  items)
  | VStr s => Ok (contains s x)
  | _ => Raise (TypeError (str "argument of type '" ++ type_name v
                           ++ str "' is not iterable"))
  end.

Definition _is_complete_json (text : pystr) : bool :=
  match Json.loads text with
  | Some _ => true
  | None => false
  end.

(** The shape a block must have to answer a request of type
    [request_type]; [and] and [or] evaluate their right operand only when
    it decides. *)
Definition is_listing (request_type : pystr) (result_ : value) : result bool :=
  if str_eqb request_type (str "tools/list")
  then py_in (str "tools") result_
  else Ok false.

Definition is_call_result (request_type : pystr) (result_ : value)
  : result bool :=
  if str_eqb request_type (str "tools/call") then
    (success <- py_in (str "success") result_ ;;
     if success : bool then Ok true else py_in (str "error") result_)%py
  else Ok false.

(** The [for] loop of [_extract_json_from_output] over the lines still to
    read, with its two variables; [Some] is a [return] from inside the
    loop. *)
Fixpoint scan_lines (request_type : pystr) (lines : list pystr)
    (in_json : bool) (json_lines : list pystr) : result (option value) :=
  match lines with
  | [] => Ok None
  | line :: rest =>
      if startswith (strip line) (str "{") then
        scan_lines request_type rest true [line]
      else if in_json then
        let json_lines := json_lines ++ [line] in
        if endswith (strip line) (str "}")
           && _is_complete_json (join [] json_lines)
        then
          match Json.loads (join [] json_lines) with
          | Some result_ =>
              (listing <- is_listing request_type result_ ;;
               if listing : bool then Ok (Some result_)
               else
                 call <- is_call_result request_type result_ ;;
                 if call : bool then Ok (Some result_)
                 else scan_lines request_type rest false [])%py
          | None => scan_lines request_type rest in_json json_lines
          end
        else scan_lines request_type rest in_json json_lines
      else scan_lines request_type rest in_json json_lines
  end.

Definition tool (name description : string) : value :=
  VDict [ (str "name", VStr (str name));
          (str "description", VStr (str description)) ].

(** The default response to a listing request. *)
Definition default_tools : value :=
  VDict
    [ (str "tools",
       VList
         [ tool "expr_predictor_obj_func"
             "Compute objective function value for ExprPredictor with given parameters";
           tool "expr_par_get_free_pars"
             "Extract free parameters from ExprPar object";
           tool "expr_predictor_train"
             "Train ExprPredictor model with given data";
           tool "expr_predictor_predict"
             "Predict expression values using trained ExprPredictor";
           tool "expr_par_load" "Load ExprPar parameters from file";
           tool "expr_func_predict_expr" "Predict expression using ExprFunc" ]) ].

(** The default response to any other request. *)
Definition could_not_parse : value :=
  VDict [ (str "success", VBool false);
          (str "error", VStr (str "Could not parse backend response")) ].

Definition _extract_json_from_output (output request_type : pystr)
  : result value :=
  (found <- scan_lines request_type (Py.split output 0x0A) false [] ;;
   match found with
   | Some result_ => Ok result_
   | None =>
       if str_eqb request_type (str "tools/list")
       then Ok default_tools
       else Ok could_not_parse
   end)%py.

(** [if stderr], [if not tool_name]: an empty sequence is false. *)
Definition nonempty {A : Type} (l : list A) : bool :=
  match l with [] => false | _ :: _ => true end.

Definition _get_tools_list (self : t) : IO value :=
  (process <- create_subprocess_exec
                {| program := str_of_path (executable_path self);
                   args := [];
                   cwd := working_directory self;
                   stdin := Inherited;
                   stdout := PIPE;
                   stderr := PIPE |} ;;
   ' (stdout, stderr) <-
     try_except (wait_for_communicate process (timeout self))
       (fun e =>
          match e with
          | TimeoutError _ =>
              kill process ;; raise (RuntimeError (str "MCP backend timeout"))
          | _ => raise e
          end) ;;
   if negb (match returncode process with
            | Some rc => (rc =? 0)%Z
            | None => false
            end)
   then
     error_msg <- pure (if nonempty stderr then decode stderr
                        else Ok (str "Unknown error")) ;;
     raise (RuntimeError (str "MCP backend failed: " ++ error_msg))
   else
     output <- pure (decode stdout) ;;
     pure (_extract_json_from_output output (str "tools/list")))%io.

(** A property of an input schema. *)
Definition prop (name type description : string) : pystr * value :=
  (str name,
   VDict [ (str "type", VStr (str type));
           (str "description", VStr (str description)) ]).

Definition schema (name description : string)
    (properties : list (pystr * value)) (required : list string) : pystr * value :=
  (str name,
   VDict [ (str "name", VStr (str name));
           (str "description", VStr (str description));
           (str "inputSchema",
            VDict [ (str "type", VStr (str "object"));
                    (str "properties", VDict properties);
                    (str "required",
                     VList (List.map (fun r => VStr (str r)) required)) ]) ]).

(** The table of [_get_tool_schema]. *)
Definition schemas : dict :=
  [ schema "expr_predictor_obj_func"
      "Compute objective function value for ExprPredictor with given parameters"
      [ prop "parameters" "object" "ExprPar parameters object" ]
      [ "parameters" ];
    schema "expr_par_get_free_pars"
      "Extract free parameters from ExprPar object"
      [ prop "parameters" "object" "ExprPar parameters object";
        prop "coopMat" "object" "Cooperativity matrix";
        prop "actIndicators" "array" "Activator indicators";
        prop "repIndicators" "array" "Repressor indicators" ]
      [ "parameters"; "coopMat"; "actIndicators"; "repIndicators" ];
    schema "expr_predictor_train"
      "Train ExprPredictor model with given data"
      [ prop "initialParameters" "object" "Initial ExprPar parameters";
        prop "trainingData" "object" "Training dataset";
        prop "options" "object" "Training options" ]
      [ "initialParameters"; "trainingData" ];
    schema "expr_predictor_predict"
      "Predict expression values using trained ExprPredictor"
      [ prop "parameters" "object" "Trained ExprPar parameters";
        prop "sequences" "array" "Input sequences for prediction";
        prop "conditions" "array" "Experimental conditions" ]
      [ "parameters"; "sequences" ];
    schema "expr_par_load"
      "Load ExprPar parameters from file"
      [ prop "filename" "string" "Path to parameter file";
        prop "coopMat" "object" "Cooperativity matrix";
        prop "repIndicators" "array" "Repressor indicators" ]
      [ "filename"; "coopMat"; "repIndicators" ];
    schema "expr_func_predict_expr"
      "Predict expression using ExprFunc"
      [ prop "sites" "array" "Binding sites (SiteVec)";
        prop "length" "integer" "Sequence length";
        prop "factorConcentrations" "array" "TF concentration values" ]
      [ "sites"; "length"; "factorConcentrations" ] ]%string.

(** [bool(tool_name)] for a name that is [None] or a string. *)
Definition given (tool_name : option pystr) : bool :=
  match tool_name with
  | Some name => nonempty name
  | None => false
  end.

Definition _get_tool_schema (self : t) (tool_name : option pystr) : IO value :=
  match tool_name with
  | Some name =>
      if negb (nonempty name) then
        raise (ValueError (str "Tool name is required"))
      else
        match dict_get name schemas with
        | None => raise (ValueError (str "Unknown tool: " ++ name))
        | Some schema_ => ret schema_
        end
  | None => raise (ValueError (str "Tool name is required"))
  end.

Definition _execute_tool (self : t) (tool_name : option pystr)
    (arguments : value) : IO value :=
  (if negb (given tool_name) then
     raise (ValueError (str "Tool name is required"))
   else
     process <- create_subprocess_exec
                {| program := str_of_path (executable_path self);
                   args := [];
                   cwd := working_directory self;
                   stdin := Inherited;
                   stdout := PIPE;
                   stderr := PIPE |} ;;
     ' (stdout, stderr) <-
       try_except (wait_for_communicate process (timeout self))
         (fun e =>
            match e with
            | TimeoutError _ =>
                kill process ;; raise (RuntimeError (str "MCP backend timeout"))
            | _ => raise e
            end) ;;
     if negb (match returncode process with
              | Some rc => (rc =? 0)%Z
              | None => false
              end)
     then
       error_msg <- pure (if nonempty stderr then decode stderr
                          else Ok (str "Unknown error")) ;;
       raise (RuntimeError (str "MCP backend failed: " ++ error_msg))
     else
       output <- pure (decode stdout) ;;
       pure (_extract_json_from_output output (str "tools/call")))%io.

(** The [params] of a request, by the two entries the program reads: the
    name (absent, [None], or a string, as [tool_name: str] is annotated) and
    the arguments. *)
Record Params : Type :=
  { name : option pystr;
    arguments : option value }.

(** The dispatch inside the [try] of [call_mcp_tool]. *)
Definition dispatch (self : t) (method : pystr) (params : option Params)
  : IO value :=
  if str_eqb method (str "tools/list") then _get_tools_list self
  else if str_eqb method (str "tools/get_schema") then
    let tool_name := match params with Some p => name p | None => None end in
    _get_tool_schema self tool_name
  else if str_eqb method (str "tools/call") then
    let tool_name := match params with Some p => name p | None => None end in
    let arguments :=
      match params with
      | Some p => match arguments p with Some a => a | None => VDict [] end
      | None => VDict []
      end in
    _execute_tool self tool_name arguments
  else raise (ValueError (str "Unknown method: " ++ method)).

(** The dictionary an exception is turned into. *)
Definition failure (e : exn) : value :=
  VDict [ (str "success", VBool false); (str "error", VStr (str_exn e)) ].

Definition call_mcp_tool (self : t) (method : pystr) (params : option Params)
  : IO value :=
  try_except (dispatch self method params) (fun e => ret (failure e)).

End MCPBackend.

(** ** The HTTP routes

    A handler answers with a status and a content: a returned dictionary
    is sent with status 200, an [HTTPException] with its own status and the
    content [{"detail": ...}].  How the framework renders the content is
    not part of the model. *)

Module Routes.

Import MCPBackend.

Record response : Type :=
  { status_code : Z;
    content : value }.

Definition returns (body : value) : response :=
  {| status_code := 200; content := body |}.

Definition HTTPException (status : Z) (detail : pystr) : response :=
  {| status_code := status; content := VDict [ (str "detail", VStr detail) ] |}.

Definition JSONResponse (status : Z) (body : value) : response :=
  {| status_code := status; content := body |}.

(** [v.get(k, default)] *)
Definition py_get (v : value) (k : pystr) (default : value) : result value :=
  match v with
  | VDict d =>
      Ok (match dict_get k d with Some x => x | None => default end)
  | _ => Raise (AttributeError (str "'" ++ type_name v
                                ++ str "' object has no attribute 'get'"))
  end.

(** [len(v)] *)
Definition len (v : value) : result Z :=
  match v with
  | VStr s => Ok (Z.of_nat (List.length s))
  | VList items => Ok (Z.of_nat (List.length items))
  | VDict d => Ok (Z.of_nat (List.length d))
  | _ => Raise (TypeError (str "object of type '" ++ type_name v
                           ++ str "' has no len()"))
  end.

(** [GET /health] *)
Definition health_check (backend : t) : IO response :=
  try_except
    (result_ <- call_mcp_tool backend (str "tools/list") None ;;
     tools <- pure (py_get result_ (str "tools") (VList [])) ;;
     n <- pure (len tools) ;;
     ret (returns (VDict [ (str "status", VStr (str "healthy"));
                           (str "backend", VStr (str "accessible"));
                           (str "tools_available", VInt n) ])))%io
    (fun e =>
       ret (JSONResponse 503
              (VDict [ (str "status", VStr (str "unhealthy"));
                       (str "error", VStr (str_exn e)) ]))).

(** [GET /tools/list] *)
Definition list_tools (backend : t) : IO response :=
  try_except
    (result_ <- call_mcp_tool backend (str "tools/list") None ;;
     ret (returns result_))%io
    (fun e => ret (HTTPException 500 (str_exn e))).

(** [GET /tools/schema/{tool_name}] *)
Definition get_tool_schema (backend : t) (tool_name : pystr) : IO response :=
  try_except
    (result_ <- call_mcp_tool backend (str "tools/get_schema")
                  (Some {| name := Some tool_name; arguments := None |}) ;;
     ret (returns result_))%io
    (fun e => ret (HTTPException 500 (str_exn e))).

(** [POST /tools/call/{tool_name}] *)
Definition call_tool (backend : t) (tool_name : pystr) (arguments : value)
  : IO response :=
  try_except
    (result_ <- call_mcp_tool backend (str "tools/call")
                  (Some {| name := Some tool_name;
                           arguments := Some arguments |}) ;;
     ret (returns result_))%io
    (fun e => ret (HTTPException 500 (str_exn e))).

(** The body of [POST /mcp/request]. *)
Record MCPRequest : Type :=
  { method : pystr;
    params : option Params }.

(** [POST /mcp/request] *)
Definition mcp_request (backend : t) (request : MCPRequest) : IO response :=
  try_except
    (result_ <- call_mcp_tool backend (method request) (params request) ;;
     ret (returns result_))%io
    (fun e => ret (HTTPException 500 (str_exn e))).

End Routes.

(** ** The entry point

    What the block under [if __name__ == "__main__"] hands to
    [uvicorn.run]. *)

Module Main.

Section Startup.

(** Which float literals are zero is the interpreter's business. *)
Variable is_zero : pystr -> bool.




End Startup.

End Main.

(** ** The vocabulary of the specification *)

Module Spec.

Import MCPBackend Routes.

(** The six tools the specification knows. *)
Definition known_tools : list pystr :=
  [ str "expr_predictor_obj_func"; str "expr_par_get_free_pars";
    str "expr_predictor_train"; str "expr_predictor_predict";
    str "expr_par_load"; str "expr_func_predict_expr" ].

(** The default configuration as the specification documents it: host
    0.0.0.0, port 8080, debug false, executable ./mcp_demo, working
    directory ., timeout 30, logging INFO, discovery enabled. *)
Definition documented_default : list (pystr * value) :=
  [ (str "server.host", VStr (str "0.0.0.0"));
    (str "server.port", VInt 8080);
    (str "server.debug", VBool false);
    (str "mcp.executable_path", VStr (str "./mcp_demo"));
    (str "mcp.working_directory", VStr (str "."));
    (str "mcp.timeout", VInt 30);
    (str "logging.level", VStr (str "INFO"));
    (str "tools.discovery_enabled", VBool true) ].

(** The settings of a configuration: every entry of every section, under
    its dotted key. *)
Definition settings (config : value) : list (pystr * value) :=
  match config with
  | VDict sections =>
      flat_map
        (fun section =>
           match snd section with
           | VDict entries =>
               List.map (fun entry =>
                           (fst section ++ str "." ++ fst entry, snd entry))
                        entries
           | v => [(fst section, v)]
           end)
        sections
  | _ => []
  end.

(** A loaded configuration the overrides can be written into. *)
Definition has_section (config : value) (section : pystr) : Prop :=
  exists sections entries,
    config = VDict sections /\ dict_get section sections = Some (VDict entries).

(** A line that opens a block, and one that closes it. *)
Definition opens (line : pystr) : bool := startswith (strip line) (str "{").
Definition closes (line : pystr) : bool := endswith (strip line) (str "}").

(** The shape predicate of the scraper holds of a parsed block. *)
Definition qualifies (request_type : pystr) (block : value) : Prop :=
  is_listing request_type block = Ok true
  \/ is_call_result request_type block = Ok true.


(** Two invariants of the loop of the scraper.  While it is inside a
    block, the lines it has gathered start with the line that opened the
    block... *)
Definition gathering (in_json : bool) (json_lines : list pystr) : Prop :=
  in_json = true ->
  exists first others, json_lines = first :: others /\ opens first = true.


(** The one subprocess invocation: the executable, no arguments, the
    working directory, both output streams captured. *)
Definition invocation (self : t) : exec_call :=
  {| program := str_of_path (executable_path self);
     args := [];
     cwd := working_directory self;
     stdin := Inherited;
     stdout := PIPE;
     stderr := PIPE |}.

(** What an operation that invokes the backend does to the world: it
    spawns, waits under the configured timeout, and kills on a timeout. *)
Definition invocation_trace (self : t) (w : world) : list event :=
  match w with
  | SpawnFails _ => [Spawn (invocation self)]
  | WaitRaises (TimeoutError _) =>
      [Spawn (invocation self); WaitFor (timeout self); Kill]
  | _ => [Spawn (invocation self); WaitFor (timeout self)]
  end.

(** What an operation that invokes the backend comes to in the world [w]:
    a failure of the spawn or of the wait as it is, a timeout and a
    non-zero exit as a [RuntimeError], an exit with status zero as what the
    scraper reads in the decoded output. *)
Definition answer (request_type : pystr) (w : world) : result value :=
  match w with
  | SpawnFails e => Raise e
  | WaitRaises (TimeoutError _) => Raise (RuntimeError (str "MCP backend timeout"))
  | WaitRaises e => Raise e
  | Exits rc out err =>
      if (rc =? 0)%Z then
        (output <- decode out ;;
         _extract_json_from_output output request_type)%py
      else
        (error_msg <- (if nonempty err then decode err
                       else Ok (str "Unknown error")) ;;
         Raise (RuntimeError (str "MCP backend failed: " ++ error_msg)))%py
  end.

(** Both invoking operations fail with [e] in the world [w]. *)
Definition reports (self : t) (w : world) (e : exn) : Prop :=
  run (_get_tools_list self) w = (Raise e, invocation_trace self w)
  /\ forall name arguments,
       name <> [] ->
       run (_execute_tool self (Some name) arguments) w
       = (Raise e, invocation_trace self w).

(** The required fields of a schema. *)
Definition required_fields (schema_ : value) : option (list value) :=
  match schema_ with
  | VDict d =>
      match dict_get (str "inputSchema") d with
      | Some (VDict i) =>
          match dict_get (str "required") i with
          | Some (VList fields) => Some fields
          | _ => None
          end
      | _ => None
      end
  | _ => None
  end.


(** The body of a healthy answer. *)
Definition healthy (tools_available : Z) : value :=
  VDict [ (str "status", VStr (str "healthy"));
          (str "backend", VStr (str "accessible"));
          (str "tools_available", VInt tools_available) ].

End Spec.

(** ** Further vocabulary, for the properties read off the code *)

Module Notions.

Import MCPBackend.

(** No character of [s] is a dot. *)
Definition dotless (s : pystr) : Prop := ~ In (chr ".") s.



(** No variable of [env] is one the configuration reads. *)
Definition silent (env : MCPConfig.environ) : Prop :=
  MCPConfig.getenv env (str "MCP_SERVER_HOST") = None
  /\ MCPConfig.getenv env (str "MCP_SERVER_PORT") = None
  /\ MCPConfig.getenv env (str "MCP_EXECUTABLE_PATH") = None
  /\ MCPConfig.getenv env (str "MCP_WORKING_DIR") = None.

(** The three methods [call_mcp_tool] knows. *)
Definition methods : list pystr :=
  [ str "tools/list"; str "tools/get_schema"; str "tools/call" ].

(** The tool name a request carries, if any: [params.get("name") if params
    else None]. *)
Definition name_of (params : option Params) : option pystr :=
  match params with
  | Some p => name p
  | None => None
  end.


(** The name and the description a tool descriptor or a schema carries. *)
Definition descriptor (entry : value) : option (pystr * pystr) :=
  match entry with
  | VDict d =>
      match dict_get (str "name") d, dict_get (str "description") d with
      | Some (VStr name_), Some (VStr description) => Some (name_, description)
      | _, _ => None
      end
  | _ => None
  end.

(** The descriptors of a listing. *)
Definition tools_of (listing : value) : list value :=
  match listing with
  | VDict d =>
      match dict_get (str "tools") d with
      | Some (VList tools) => tools
      | _ => []
      end
  | _ => []
  end.

(** The fields a schema declares among its properties. *)
Definition declared_fields (schema_ : value) : list pystr :=
  match schema_ with
  | VDict d =>
      match dict_get (str "inputSchema") d with
      | Some (VDict i) =>
          match dict_get (str "properties") i with
          | Some (VDict properties) => List.map fst properties
          | _ => []
          end
      | _ => []
      end
  | _ => []
  end.

(** [len] is defined on the value. *)
Definition sized (v : value) : bool :=
  match v with
  | VStr _ | VList _ | VDict _ => true
  | _ => false
  end.

(** The body of an unhealthy answer. *)
Definition unhealthy (e : exn) : value :=
  VDict [ (str "status", VStr (str "unhealthy"));
          (str "error", VStr (str_exn e)) ].


End Notions.

(** ** Concrete inputs for the examples *)

Module Demo.

Import MCPBackend Routes.

(** An ASCII literal in which the apostrophe stands for the double quote. *)
Definition dq (s : string) : pystr :=
  List.map (fun c => if c =? 39 then 34 else c) (str s).
Arguments dq s%_string.

(** The text of some lines, a newline between them. *)
Definition text (lines : list pystr) : pystr := join [0x0A] lines.

(** ASCII text, as the bytes a process writes. *)
Definition encode (s : pystr) : bytes :=
  List.map (fun c => match Byte.of_N c with Some b => b | None => x00 end) s.

(** [int] on plain decimal literals: an optional sign, then digits. *)
Definition decimal_int (s : pystr) : result Z :=
  let '(negative, body) :=
    match s with
    | c :: s' =>
        if c =? chr "-" then (true, s')
        else if c =? chr "+" then (false, s') else (false, s)
    | [] => (false, [])
    end in
  if nonempty body && forallb Json.is_digit body then
    Ok (if negative : bool then - Json.int_of_digits body 0
        else Json.int_of_digits body 0)%Z
  else
    Raise (ValueError (str "invalid literal for int() with base 10: '"
                       ++ s ++ str "'")).

(** A disk on which everything exists, seen from [/srv/app]. *)
Definition disk : filesystem :=
  {| resolve := fun p => joinpath (parse (str "/srv/app")) p;
     exists_ := fun _ => true |}.


(** The backend built from the default configuration on [disk]. *)
Definition backend : t :=
  {| config := MCPConfig._default_config;
     working_directory := parse (str "/srv/app");
     executable_path := parse (str "/srv/app/mcp_demo");
     timeout := VInt 30 |}.

(** A configuration file that sets every overridable key. *)
Definition config_file : value :=
  VDict
    [ (str "server",
       VDict [ (str "host", VStr (str "localhost")); (str "port", VInt 3000) ]);
      (str "mcp",
       VDict [ (str "executable_path", VStr (str "/opt/mpa/mcp_demo"));
               (str "working_directory", VStr (str "/opt/mpa")) ]) ].

(** An environment that overrides all four. *)
Definition overrides : MCPConfig.environ :=
  [ (str "MCP_SERVER_HOST", str "127.0.0.1");
    (str "MCP_SERVER_PORT", str "9090");
    (str "MCP_EXECUTABLE_PATH", str "/usr/local/bin/mcp_demo");
    (str "MCP_WORKING_DIR", str "/var/lib/mpa") ].


(** A listing printed over several lines between two lines of log. *)
Definition listing_block : list pystr :=
  [ str "{"; dq "  'tools': [";
    dq "    'expr_predictor_obj_func', 'expr_par_get_free_pars',";
    dq "    'expr_predictor_train', 'expr_predictor_predict',";
    dq "    'expr_par_load', 'expr_func_predict_expr'";
    str "  ]"; str "}" ].

Definition spread_listing : pystr :=
  text ([ str "Starting MCP demo" ] ++ listing_block ++ [ str "Done" ]).



End Demo.

(** ** More concrete inputs *)

Module Cases.

(** A block that reports a success, then a listing over several lines. *)
Definition report : list pystr :=
  [ str "{"; Demo.dq "  'success': true"; str "}" ].

Definition report_then_listing : pystr :=
  Demo.text (report ++ Demo.listing_block).


(** A configuration whose [mcp] section is empty in the file. *)
Definition hollow : value := VDict [ (str "mcp", VNone) ].

(** A configuration with a flat, dotted key. *)
Definition flat : value :=
  VDict [ (str "server.host", VStr (str "10.0.0.1")) ].


(** The entry of the schema table under a name. *)
Definition schema_of (name_ : pystr) : value :=
  match dict_get name_ MCPBackend.schemas with
  | Some schema_ => schema_
  | None => VNone
  end.

(** A pipe that breaks while the output is awaited. *)
Definition broken_pipe : exn :=
  OtherException (str "BrokenPipeError") (str "[Errno 32] Broken pipe").

End Cases.

(** * Properties *)

(** ** Strings and dictionaries *)

Lemma str_eqb_eq (a b : pystr) : str_eqb a b = true <-> a = b.
Proof.
  revert b; induction a as [|x a IH]; intros [|y b]; simpl;
    try (split; [discriminate | discriminate]); try tauto.
  rewrite andb_true_iff, N.eqb_eq, IH. split.
  - intros [-> ->]; reflexivity.
  - intros E; injection E; auto.
Qed.

Lemma str_eqb_refl (a : pystr) : str_eqb a a = true.
Proof. apply str_eqb_eq; reflexivity. Qed.

Lemma str_eqb_neq (a b : pystr) : str_eqb a b = false <-> a <> b.
Proof.
  rewrite <- str_eqb_eq. destruct (str_eqb a b); split; congruence.
Qed.

Lemma dict_get_set_same (k : pystr) (v : value) (d : dict) :
  dict_get k (dict_set k v d) = Some v.
Proof.
  induction d as [|[k' v'] d IH]; simpl.
  - rewrite str_eqb_refl; reflexivity.
  - destruct (str_eqb k k') eqn:E; simpl; rewrite E; auto.
Qed.

Lemma dict_get_set_other (k k' : pystr) (v : value) (d : dict) :
  k <> k' -> dict_get k (dict_set k' v d) = dict_get k d.
Proof.
  intros N. induction d as [|[k2 v2] d IH]; simpl.
  - apply str_eqb_neq in N; rewrite N; reflexivity.
  - destruct (str_eqb k' k2) eqn:E; simpl.
    + apply str_eqb_eq in E; subst k2.
      apply str_eqb_neq in N; rewrite N; reflexivity.
    + destruct (str_eqb k k2); auto.
Qed.

Lemma join_nil_cons (p : pystr) (rest : list pystr) :
  join [] (p :: rest) = p ++ join [] rest.
Proof.
  destruct rest; simpl; [rewrite app_nil_r|]; reflexivity.
Qed.

Lemma join_nil_app (a b : list pystr) :
  join [] (a ++ b) = join [] a ++ join [] b.
Proof.
  induction a as [|p a IH]; [reflexivity|].
  rewrite <- app_comm_cons, !join_nil_cons, IH, app_assoc; reflexivity.
Qed.

(** What [lstrip] removes is whitespace, and it stops at the first
    character that is not. *)
Lemma lstrip_spec (s : pystr) :
  exists ws, s = ws ++ lstrip s /\ Forall (fun c => isspace c = true) ws.
Proof.
  induction s as [|c s (ws & E & F)]; simpl.
  - exists []; split; [reflexivity | constructor].
  - destruct (isspace c) eqn:Ec.
    + exists (c :: ws); split; [simpl; congruence | constructor; assumption].
    + exists []; split; [reflexivity | constructor].
Qed.

Lemma rstrip_prefix (s : pystr) : exists t, s = rstrip s ++ t.
Proof.
  unfold rstrip. destruct (lstrip_spec (rev s)) as (ws & E & _).
  exists (rev ws).
  rewrite <- rev_app_distr, <- E, rev_involutive; reflexivity.
Qed.

(** A line that opens a block is whitespace, then a brace. *)
Lemma opens_spec (line : pystr) :
  Spec.opens line = true ->
  exists ws t,
    line = ws ++ chr "{" :: t /\ Forall (fun c => isspace c = true) ws.
Proof.
  unfold Spec.opens, strip. intros H.
  destruct (lstrip_spec line) as (ws & E & F).
  destruct (rstrip_prefix (lstrip line)) as (t & Et).
  destruct (rstrip (lstrip line)) as [|c r]; [discriminate|].
  simpl in H. apply andb_true_iff in H as [Hc _]. apply N.eqb_eq in Hc.
  subst c. exists ws, (r ++ t). split; [|assumption].
  rewrite E at 1. rewrite Et at 1. reflexivity.
Qed.

(** ** The JSON decoder on a text that opens with a brace *)

Ltac break_match H :=
  match type of H with
  | context [match ?x with _ => _ end] =>
      let E := fresh "E" in destruct x eqn:E; try discriminate H
  | context [if ?x then _ else _] =>
      let E := fresh "E" in destruct x eqn:E; try discriminate H
  end.

Lemma JSONObject_is_dict (fuel : nat) :
  forall pairs s v r,
    Json.JSONObject fuel pairs s = Some (v, r) -> exists d, v = VDict d.
Proof.
  induction fuel as [|fuel IH]; intros pairs s v r H; [discriminate|].
  simpl in H. repeat break_match H.
  - injection H as <- _. eauto.
  - eapply IH; eassumption.
Qed.

(** A character [str.strip] removes and JSON does not skip starts no JSON
    value. *)
Lemma isspace_cases (c : N) :
  isspace c = true ->
  (9 <= c <= 13 \/ 28 <= c <= 32 \/ c = 133 \/ c = 160 \/ 5760 <= c).
Proof.
  unfold isspace. rewrite !orb_true_iff, !andb_true_iff, !N.leb_le, !N.eqb_eq.
  lia.
Qed.

Lemma scan_once_space (fuel : nat) (c : N) (r : pystr) :
  isspace c = true -> Json.scan_once fuel (c :: r) = None.
Proof.
  intros Hc. apply isspace_cases in Hc.
  destruct fuel as [|fuel]; [reflexivity|].
  cbn [Json.scan_once].
  assert (T : forall k, k <> c -> (c =? k) = false)
    by (intros k Hk; apply N.eqb_neq; congruence).
  rewrite !T by (cbv; lia).
  assert (K : forall word v, word <> ""%string ->
                N_of_ascii (match word with String a _ => a | _ => zero end) <> c ->
                Json.keyword (c :: r) word v = None).
  { intros [|a word] v Hw Ha; [congruence|].
    unfold Json.keyword. simpl. rewrite (T _ Ha). reflexivity. }
  unfold Json.atom. rewrite !K by (try discriminate; cbv; lia).
  unfold Json.match_number, Json.match_integer, Json.is_digit.
  rewrite !T by (cbv; lia).
  replace ((48 <=? c) && (c <=? 57)) with false; [reflexivity|].
  symmetry. apply andb_false_iff. rewrite !N.leb_gt. lia.
Qed.

Lemma scan_once_brace (fuel : nat) (tail : pystr) (v : value) (r : pystr) :
  Json.scan_once fuel (chr "{" :: tail) = Some (v, r) -> exists d, v = VDict d.
Proof.
  destruct fuel as [|fuel]; [discriminate|].
  cbn [Json.scan_once]. change (chr "{" =? 34) with false.
  change (chr "{" =? chr "{") with true. cbv iota.
  intros H. repeat break_match H.
  - injection H as <- _. eauto.
  - eapply JSONObject_is_dict; eassumption.
Qed.

Lemma scan_once_after_spaces (fuel : nat) (ws tail : pystr) (v : value)
    (r : pystr) :
  Forall (fun c => isspace c = true) ws ->
  Json.scan_once fuel (Json.skip_ws (ws ++ chr "{" :: tail)) = Some (v, r) ->
  exists d, v = VDict d.
Proof.
  induction 1 as [|c ws Hc _ IH]; simpl.
  - apply scan_once_brace.
  - destruct (Json.is_ws c); [exact IH|].
    rewrite scan_once_space by assumption. discriminate.
Qed.

(** The law of the decoder the scraper rests on: a text whose first line
    opens with a brace decodes, if at all, to a dictionary. *)
Lemma loads_object (line rest : pystr) (v : value) :
  Spec.opens line = true ->
  Json.loads (line ++ rest) = Some v ->
  exists d, v = VDict d.
Proof.
  intros Ho H. destruct (opens_spec line Ho) as (ws & t & -> & F).
  unfold Json.loads in H. repeat break_match H.
  rewrite <- app_assoc, <- app_comm_cons in E0. injection H as <-.
  eapply scan_once_after_spaces; eassumption.
Qed.

(** ** The JSON decoder: fuel, and what follows a value *)

Lemma skip_ws_length (s : pystr) : (List.length (Json.skip_ws s) <= List.length s)%nat.
Proof.
  induction s as [|c s IH]; simpl; [lia|].
  destruct (Json.is_ws c); simpl; lia.
Qed.

Lemma scan_chars_length (n : nat) :
  forall s acc chars r,
    (List.length s <= n)%nat ->
    Json.scan_chars s acc = Some (chars, r) ->
    (List.length r < List.length s)%nat.
Proof.
  induction n as [|n IH]; intros s acc chars r Hn H.
  - destruct s; [discriminate H | simpl in Hn; lia].
  - destruct s as [|c s]; [discriminate H|].
    simpl in Hn. cbn [Json.scan_chars] in H.
    destruct (c =? 34). { injection H as _ <-. simpl. lia. }
    destruct (c <? 32); [discriminate H|].
    destruct (c =? 92).
    + destruct s as [|e r1]; [discriminate H|].
      destruct (e =? chr "u").
      * destruct r1 as [|h1 [|h2 [|h3 [|h4 r2]]]]; try discriminate H.
        destruct (Json.hex4 h1 h2 h3 h4); [|discriminate H].
        apply IH in H; simpl in *; lia.
      * destruct (Json.simple_escape e); [|discriminate H].
        apply IH in H; simpl in *; lia.
    + apply IH in H; simpl in *; lia.
Qed.

Lemma scanstring_length (s text r : pystr) :
  Json.scanstring s = Some (text, r) -> (List.length r < List.length s)%nat.
Proof.
  unfold Json.scanstring.
  destruct (Json.scan_chars s []) as [[chars r']|] eqn:E; [|discriminate].
  intros [= _ <-]. eapply scan_chars_length; [reflexivity | eassumption].
Qed.

Lemma span_digits_length (s ds r : pystr) :
  Json.span_digits s = (ds, r) -> (List.length r <= List.length s)%nat.
Proof.
  revert ds r. induction s as [|c s IH]; simpl; intros ds r H.
  - injection H as _ <-. simpl. lia.
  - destruct (Json.is_digit c).
    + destruct (Json.span_digits s) as [ds' r']. injection H as _ <-.
      specialize (IH _ _ eq_refl). lia.
    + injection H as _ <-. simpl. lia.
Qed.

Lemma match_integer_length (s i r : pystr) :
  Json.match_integer s = Some (i, r) -> (List.length r < List.length s)%nat.
Proof.
  unfold Json.match_integer.
  destruct s as [|c s]; [discriminate|].
  destruct (c =? chr "-").
  - destruct s as [|d s]; [discriminate|].
    destruct (d =? chr "0"). { intros [= _ <-]. simpl. lia. }
    destruct (Json.is_digit d); [|discriminate].
    destruct (Json.span_digits s) as [ds r'] eqn:E. intros [= _ <-].
    apply span_digits_length in E. simpl. lia.
  - destruct (c =? chr "0"). { intros [= _ <-]. simpl. lia. }
    destruct (Json.is_digit c); [|discriminate].
    destruct (Json.span_digits s) as [ds r'] eqn:E. intros [= _ <-].
    apply span_digits_length in E. simpl. lia.
Qed.

Lemma match_fraction_length (s f r : pystr) :
  Json.match_fraction s = (f, r) -> (List.length r <= List.length s)%nat.
Proof.
  unfold Json.match_fraction. destruct s as [|c s]; [intros [= _ <-]; simpl; lia|].
  destruct (c =? chr "."); [|intros [= _ <-]; simpl; lia].
  destruct (Json.span_digits s) as [[|d ds] r'] eqn:E; intros [= _ <-];
    [simpl; lia|]. apply span_digits_length in E. simpl. lia.
Qed.

Lemma match_exponent_length (s f r : pystr) :
  Json.match_exponent s = (f, r) -> (List.length r <= List.length s)%nat.
Proof.
  unfold Json.match_exponent. destruct s as [|c s]; [intros [= _ <-]; simpl; lia|].
  destruct ((c =? chr "e") || (c =? chr "E")); [|intros [= _ <-]; simpl; lia].
  destruct s as [|g s'].
  - simpl. intros [= _ <-]. simpl. lia.
  - destruct ((g =? chr "-") || (g =? chr "+")).
    + destruct (Json.span_digits s') as [[|d ds] r'] eqn:E; intros [= _ <-];
        [simpl; lia|]. apply span_digits_length in E. simpl. lia.
    + destruct (Json.span_digits (g :: s')) as [[|d ds] r'] eqn:E; intros [= _ <-];
        [simpl; lia|]. apply span_digits_length in E. simpl in *. lia.
Qed.

Lemma match_number_length (s : pystr) (v : value) (r : pystr) :
  Json.match_number s = Some (v, r) -> (List.length r < List.length s)%nat.
Proof.
  unfold Json.match_number.
  destruct (Json.match_integer s) as [[i r0]|] eqn:Ei; [|discriminate].
  destruct (Json.match_fraction r0) as [f r1] eqn:Ef.
  destruct (Json.match_exponent r1) as [x r2] eqn:Ex.
  apply match_integer_length in Ei. apply match_fraction_length in Ef.
  apply match_exponent_length in Ex.
  destruct f, x; intros [= _ <-]; lia.
Qed.

Lemma startswith_length (s p : pystr) :
  startswith s p = true -> (List.length p <= List.length s)%nat.
Proof.
  revert s. induction p as [|a p IH]; intros [|c s]; simpl; try lia; try discriminate.
  rewrite andb_true_iff. intros [_ H]. apply IH in H. lia.
Qed.

Lemma keyword_length (s : pystr) (word : string) (v v' : value) (r : pystr) :
  word <> ""%string ->
  Json.keyword s word v = Some (v', r) -> (List.length r < List.length s)%nat.
Proof.
  unfold Json.keyword. intros Hw.
  destruct (startswith s (str word)) eqn:E; [|discriminate].
  intros [= _ <-]. apply startswith_length in E.
  unfold str in E. rewrite length_map in E.
  assert (L : List.length (list_ascii_of_string word) = String.length word).
  { clear. induction word; simpl; auto. }
  rewrite L in E. rewrite length_skipn.
  destruct word; [congruence|]. simpl in *. lia.
Qed.

Lemma first_of_some {A : Type} (a b : option A) (x : A) :
  Json.first_of a b = Some x -> a = Some x \/ (a = None /\ b = Some x).
Proof. destruct a; simpl; auto. Qed.

Lemma atom_length (s : pystr) (v : value) (r : pystr) :
  Json.atom s = Some (v, r) -> (List.length r < List.length s)%nat.
Proof.
  unfold Json.atom. intros H.
  repeat (apply first_of_some in H as [H | [_ H]];
          [first [ apply keyword_length in H; [exact H | discriminate]
                 | apply match_number_length in H; exact H ] |]).
  apply keyword_length in H; [exact H | discriminate].
Qed.

Lemma parse_length (fuel : nat) :
  (forall s v r, Json.scan_once fuel s = Some (v, r) ->
                 (List.length r < List.length s)%nat)
  /\ (forall pairs s v r, Json.JSONObject fuel pairs s = Some (v, r) ->
                          (List.length r < List.length s)%nat)
  /\ (forall items s v r, Json.JSONArray fuel items s = Some (v, r) ->
                          (List.length r < List.length s)%nat).
Proof.
  induction fuel as [|fuel (IHv & IHo & IHa)].
  - repeat split; intros; discriminate.
  - split; [|split].
    + intros s v r H. cbn [Json.scan_once] in H.
      destruct s as [|c r0]; [discriminate H|].
      destruct (c =? 34).
      { destruct (Json.scanstring r0) as [[text r']|] eqn:E; [|discriminate H].
        injection H as _ <-. apply scanstring_length in E. simpl. lia. }
      destruct (c =? chr "{").
      { destruct (Json.skip_ws r0) as [|c' r'] eqn:E; [discriminate H|].
        pose proof (skip_ws_length r0) as L. rewrite E in L. simpl in L.
        destruct (c' =? chr "}"). { injection H as _ <-. simpl. lia. }
        destruct (c' =? 34); [|discriminate H].
        apply IHo in H. simpl. lia. }
      destruct (c =? chr "[").
      { destruct (Json.skip_ws r0) as [|c' r'] eqn:E; [discriminate H|].
        pose proof (skip_ws_length r0) as L. rewrite E in L. simpl in L.
        destruct (c' =? chr "]"). { injection H as _ <-. simpl. lia. }
        apply IHa in H. simpl in *. lia. }
      apply atom_length in H. exact H.
    + intros pairs s v r H. cbn [Json.JSONObject] in H.
      destruct (Json.scanstring s) as [[key r1]|] eqn:E1; [|discriminate H].
      apply scanstring_length in E1.
      destruct (Json.skip_ws r1) as [|c r2] eqn:E2; [discriminate H|].
      pose proof (skip_ws_length r1) as L1. rewrite E2 in L1. simpl in L1.
      destruct (c =? chr ":"); [|discriminate H].
      destruct (Json.scan_once fuel (Json.skip_ws r2)) as [[v0 r3]|] eqn:E3;
        [|discriminate H].
      apply IHv in E3. pose proof (skip_ws_length r2) as L2.
      destruct (Json.skip_ws r3) as [|c' r4] eqn:E4; [discriminate H|].
      pose proof (skip_ws_length r3) as L3. rewrite E4 in L3. simpl in L3.
      destruct (c' =? chr "}"). { injection H as _ <-. lia. }
      destruct (c' =? chr ","); [|discriminate H].
      destruct (Json.skip_ws r4) as [|q r5] eqn:E5; [discriminate H|].
      pose proof (skip_ws_length r4) as L4. rewrite E5 in L4. simpl in L4.
      destruct (q =? 34); [|discriminate H].
      apply IHo in H. lia.
    + intros items s v r H. cbn [Json.JSONArray] in H.
      destruct (Json.scan_once fuel s) as [[v0 r1]|] eqn:E1; [|discriminate H].
      apply IHv in E1.
      destruct (Json.skip_ws r1) as [|c r2] eqn:E2; [discriminate H|].
      pose proof (skip_ws_length r1) as L1. rewrite E2 in L1. simpl in L1.
      destruct (c =? chr "]"). { injection H as _ <-. lia. }
      destruct (c =? chr ","); [|discriminate H].
      apply IHa in H. pose proof (skip_ws_length r2). lia.
Qed.

(** More fuel keeps a result. *)
Lemma parse_more_fuel (fuel : nat) :
  (forall s x, Json.scan_once fuel s = Some x ->
               forall fuel', (fuel <= fuel')%nat -> Json.scan_once fuel' s = Some x)
  /\ (forall pairs s x, Json.JSONObject fuel pairs s = Some x ->
                        forall fuel', (fuel <= fuel')%nat ->
                                      Json.JSONObject fuel' pairs s = Some x)
  /\ (forall items s x, Json.JSONArray fuel items s = Some x ->
                        forall fuel', (fuel <= fuel')%nat ->
                                      Json.JSONArray fuel' items s = Some x).
Proof.
  induction fuel as [|fuel (IHv & IHo & IHa)].
  - repeat split; intros; discriminate.
  - split; [|split].
    + intros s x H [|fuel'] Hf; [lia|]. cbn [Json.scan_once] in *.
      destruct s as [|c r0]; [discriminate H|].
      destruct (c =? 34); [exact H|].
      destruct (c =? chr "{").
      { destruct (Json.skip_ws r0) as [|c' r']; [discriminate H|].
        destruct (c' =? chr "}"); [exact H|].
        destruct (c' =? 34); [|discriminate H]. apply (IHo _ _ _ H). lia. }
      destruct (c =? chr "["); [|exact H].
      destruct (Json.skip_ws r0) as [|c' r']; [discriminate H|].
      destruct (c' =? chr "]"); [exact H|]. apply (IHa _ _ _ H). lia.
    + intros pairs s x H [|fuel'] Hf; [lia|]. cbn [Json.JSONObject] in *.
      destruct (Json.scanstring s) as [[key r1]|]; [|discriminate H].
      destruct (Json.skip_ws r1) as [|c r2]; [discriminate H|].
      destruct (c =? chr ":"); [|discriminate H].
      destruct (Json.scan_once fuel (Json.skip_ws r2)) as [[v0 r3]|] eqn:E3;
        [|discriminate H].
      rewrite (IHv _ _ E3 fuel') by lia.
      destruct (Json.skip_ws r3) as [|c' r4]; [discriminate H|].
      destruct (c' =? chr "}"); [exact H|].
      destruct (c' =? chr ","); [|discriminate H].
      destruct (Json.skip_ws r4) as [|q r5]; [discriminate H|].
      destruct (q =? 34); [|discriminate H]. apply (IHo _ _ _ H). lia.
    + intros items s x H [|fuel'] Hf; [lia|]. cbn [Json.JSONArray] in *.
      destruct (Json.scan_once fuel s) as [[v0 r1]|] eqn:E1; [|discriminate H].
      rewrite (IHv _ _ E1 fuel') by lia.
      destruct (Json.skip_ws r1) as [|c r2]; [discriminate H|].
      destruct (c =? chr "]"); [exact H|].
      destruct (c =? chr ","); [|discriminate H]. apply (IHa _ _ _ H). lia.
Qed.

(** A result needs no more fuel than it reads characters. *)
Lemma parse_fuel_read (fuel : nat) :
  (forall s v r, Json.scan_once fuel s = Some (v, r) ->
                 forall fuel', (List.length s - List.length r <= fuel')%nat ->
                               Json.scan_once fuel' s = Some (v, r))
  /\ (forall pairs s v r, Json.JSONObject fuel pairs s = Some (v, r) ->
                          forall fuel', (List.length s - List.length r <= fuel')%nat ->
                                        Json.JSONObject fuel' pairs s = Some (v, r))
  /\ (forall items s v r, Json.JSONArray fuel items s = Some (v, r) ->
                          forall fuel', (List.length s - List.length r <= fuel')%nat ->
                                        Json.JSONArray fuel' items s = Some (v, r)).
Proof.
  induction fuel as [|fuel (IHv & IHo & IHa)].
  - repeat split; intros; discriminate.
  - destruct (parse_length fuel) as (Lv & Lo & La).
    split; [|split].
    + intros s v r H fuel' Hf.
      pose proof (proj1 (parse_length (S fuel)) _ _ _ H) as L.
      destruct fuel' as [|fuel']; [lia|]. cbn [Json.scan_once] in *.
      destruct s as [|c r0]; [discriminate H|]. cbn [List.length] in Hf, L.
      destruct (c =? 34); [exact H|].
      destruct (c =? chr "{").
      { destruct (Json.skip_ws r0) as [|c' r'] eqn:E; [discriminate H|].
        pose proof (skip_ws_length r0) as L0. rewrite E in L0. simpl in L0.
        destruct (c' =? chr "}"); [exact H|].
        destruct (c' =? 34); [|discriminate H].
        pose proof (Lo _ _ _ _ H). apply (IHo _ _ _ _ H). lia. }
      destruct (c =? chr "["); [|exact H].
      destruct (Json.skip_ws r0) as [|c' r'] eqn:E; [discriminate H|].
      pose proof (skip_ws_length r0) as L0. rewrite E in L0. simpl in L0.
      destruct (c' =? chr "]"); [exact H|].
      pose proof (La _ _ _ _ H). apply (IHa _ _ _ _ H). cbn [List.length] in *. lia.
    + intros pairs s v r H fuel' Hf.
      pose proof (proj1 (proj2 (parse_length (S fuel))) _ _ _ _ H) as L.
      destruct fuel' as [|fuel']; [lia|]. cbn [Json.JSONObject] in *.
      destruct (Json.scanstring s) as [[key r1]|] eqn:E1; [|discriminate H].
      apply scanstring_length in E1.
      destruct (Json.skip_ws r1) as [|c r2] eqn:E2; [discriminate H|].
      pose proof (skip_ws_length r1) as L1. rewrite E2 in L1. simpl in L1.
      destruct (c =? chr ":"); [|discriminate H].
      pose proof (skip_ws_length r2) as L2.
      destruct (Json.scan_once fuel (Json.skip_ws r2)) as [[v0 r3]|] eqn:E3;
        [|discriminate H].
      pose proof (Lv _ _ _ E3) as L3.
      destruct (Json.skip_ws r3) as [|c' r4] eqn:E4; [discriminate H|].
      pose proof (skip_ws_length r3) as L4. rewrite E4 in L4. simpl in L4.
      destruct (c' =? chr "}") eqn:C1.
      { injection H as <- <-. rewrite (IHv _ _ _ E3 fuel') by lia.
        rewrite E4, C1. reflexivity. }
      destruct (c' =? chr ",") eqn:C2; [|discriminate H].
      destruct (Json.skip_ws r4) as [|q r5] eqn:E5; [discriminate H|].
      pose proof (skip_ws_length r4) as L5. rewrite E5 in L5. simpl in L5.
      destruct (q =? 34) eqn:C3; [|discriminate H].
      pose proof (Lo _ _ _ _ H) as L6.
      rewrite (IHv _ _ _ E3 fuel') by lia. rewrite E4, C1, C2, E5, C3.
      apply (IHo _ _ _ _ H). lia.
    + intros items s v r H fuel' Hf.
      pose proof (proj2 (proj2 (parse_length (S fuel))) _ _ _ _ H) as L.
      destruct fuel' as [|fuel']; [lia|]. cbn [Json.JSONArray] in *.
      destruct (Json.scan_once fuel s) as [[v0 r1]|] eqn:E1; [|discriminate H].
      pose proof (Lv _ _ _ E1) as L1.
      destruct (Json.skip_ws r1) as [|c r2] eqn:E2; [discriminate H|].
      pose proof (skip_ws_length r1) as L2. rewrite E2 in L2. simpl in L2.
      destruct (c =? chr "]") eqn:C1.
      { injection H as <- <-. rewrite (IHv _ _ _ E1 fuel') by lia.
        rewrite E2, C1. reflexivity. }
      destruct (c =? chr ",") eqn:C2; [|discriminate H].
      pose proof (skip_ws_length r2) as L3. pose proof (La _ _ _ _ H) as L4.
      rewrite (IHv _ _ _ E1 fuel') by lia. rewrite E2, C1, C2.
      apply (IHa _ _ _ _ H). lia.
Qed.

(** The fuel [loads] gives is enough: whatever any amount of fuel finds in
    a text, as much fuel as the text is long, and one, finds. *)
Lemma scan_once_fuel (fuel : nat) (s : pystr) (x : value * pystr) :
  Json.scan_once fuel s = Some x ->
  Json.scan_once (S (List.length s)) s = Some x.
Proof.
  destruct x as [v r]. intros H.
  apply (proj1 (parse_fuel_read fuel) _ _ _ H). lia.
Qed.

Lemma skip_ws_app (s u : pystr) (c : N) (r : pystr) :
  Json.skip_ws s = c :: r -> Json.skip_ws (s ++ u) = c :: r ++ u.
Proof.
  induction s as [|a s IH]; simpl; [discriminate|].
  destruct (Json.is_ws a); [exact IH|]. intros [= -> ->]. reflexivity.
Qed.

Lemma skip_ws_nil_app (s u : pystr) :
  Json.skip_ws s = [] -> Json.skip_ws (s ++ u) = Json.skip_ws u.
Proof.
  induction s as [|a s IH]; simpl; [reflexivity|].
  destruct (Json.is_ws a); [exact IH | discriminate].
Qed.

Lemma scan_chars_app (n : nat) :
  forall s acc chars r u,
    (List.length s <= n)%nat ->
    Json.scan_chars s acc = Some (chars, r) ->
    Json.scan_chars (s ++ u) acc = Some (chars, r ++ u).
Proof.
  induction n as [|n IH]; intros s acc chars r u Hn H.
  - destruct s; [discriminate H | simpl in Hn; lia].
  - destruct s as [|c s]; [discriminate H|].
    simpl in Hn. rewrite <- app_comm_cons. cbn [Json.scan_chars] in *.
    destruct (c =? 34). { injection H as <- <-. reflexivity. }
    destruct (c <? 32); [discriminate H|].
    destruct (c =? 92).
    + destruct s as [|e r1]; [discriminate H|]. rewrite <- app_comm_cons.
      destruct (e =? chr "u").
      * destruct r1 as [|h1 [|h2 [|h3 [|h4 r2]]]]; try discriminate H.
        rewrite <- !app_comm_cons.
        destruct (Json.hex4 h1 h2 h3 h4); [|discriminate H].
        apply IH; [simpl in *; lia | exact H].
      * destruct (Json.simple_escape e); [|discriminate H].
        apply IH; [simpl in *; lia | exact H].
    + apply IH; [lia | exact H].
Qed.

Lemma scanstring_app (s text r u : pystr) :
  Json.scanstring s = Some (text, r) ->
  Json.scanstring (s ++ u) = Some (text, r ++ u).
Proof.
  unfold Json.scanstring.
  destruct (Json.scan_chars s []) as [[chars r']|] eqn:E; [|discriminate].
  intros [= <- <-].
  rewrite (scan_chars_app _ _ _ _ _ u (le_n _) E). reflexivity.
Qed.

Lemma span_digits_app (s ds r u : pystr) :
  Json.span_digits s = (ds, r) -> r <> [] ->
  Json.span_digits (s ++ u) = (ds, r ++ u).
Proof.
  revert ds r. induction s as [|c s IH]; simpl; intros ds r H Hr.
  - injection H as _ <-. congruence.
  - destruct (Json.is_digit c).
    + destruct (Json.span_digits s) as [ds' r'] eqn:E. injection H as <- <-.
      rewrite (IH _ _ eq_refl Hr). reflexivity.
    + injection H as <- <-. reflexivity.
Qed.

Lemma delimits_after_skip (r : pystr) (c : N) (r' : pystr) :
  Json.skip_ws r = c :: r' ->
  (c =? chr ",") || (c =? chr "}") || (c =? chr "]") = true ->
  Json.delimits r = true.
Proof.
  destruct r as [|a r]; simpl; [discriminate|].
  destruct (Json.is_ws a) eqn:E; [reflexivity|].
  intros [= -> ->] H. simpl. exact H.
Qed.

Lemma match_integer_app (s i r u : pystr) :
  Json.match_integer s = Some (i, r) -> r <> [] ->
  Json.match_integer (s ++ u) = Some (i, r ++ u).
Proof.
  unfold Json.match_integer. intros H Hr.
  destruct s as [|c s]; [discriminate H|]. rewrite <- app_comm_cons.
  destruct (c =? chr "-").
  - destruct s as [|d s]; [discriminate H|]. rewrite <- app_comm_cons.
    destruct (d =? chr "0"). { injection H as <- <-. reflexivity. }
    destruct (Json.is_digit d); [|discriminate H].
    destruct (Json.span_digits s) as [ds r'] eqn:E. injection H as <- <-.
    rewrite (span_digits_app _ _ _ u E Hr). reflexivity.
  - destruct (c =? chr "0"). { injection H as <- <-. reflexivity. }
    destruct (Json.is_digit c); [|discriminate H].
    destruct (Json.span_digits s) as [ds r'] eqn:E. injection H as <- <-.
    rewrite (span_digits_app _ _ _ u E Hr). reflexivity.
Qed.

Lemma match_fraction_nil : Json.match_fraction [] = ([], []).
Proof. reflexivity. Qed.

Lemma match_exponent_app (s x r u : pystr) :
  Json.match_exponent s = (x, r) -> Json.delimits r = true ->
  Json.match_exponent (s ++ u) = (x, r ++ u).
Proof.
  unfold Json.match_exponent. intros H D.
  destruct s as [|c s]. { injection H as <- <-. discriminate D. }
  rewrite <- app_comm_cons.
  destruct ((c =? chr "e") || (c =? chr "E")) eqn:Ec.
  - assert (Dc : Json.delimits (c :: s) = false).
    { simpl. apply orb_true_iff in Ec as [Ec|Ec]; apply N.eqb_eq in Ec; subst;
        reflexivity. }
    destruct s as [|g s'].
    + simpl in H. injection H as <- <-. congruence.
    + rewrite <- app_comm_cons.
      destruct ((g =? chr "-") || (g =? chr "+")).
      * destruct (Json.span_digits s') as [[|d ds] r'] eqn:E.
        { injection H as <- <-. congruence. }
        injection H as <- <-.
        rewrite (span_digits_app _ _ _ u E) by (intros ->; discriminate D).
        reflexivity.
      * destruct (Json.span_digits (g :: s')) as [[|d ds] r'] eqn:E.
        { injection H as <- <-. congruence. }
        injection H as <- <-. rewrite app_comm_cons.
        rewrite (span_digits_app _ _ _ u E) by (intros ->; discriminate D).
        reflexivity.
  - injection H as <- <-. reflexivity.
Qed.

Lemma match_exponent_delimits (s x r : pystr) :
  Json.match_exponent s = (x, r) -> Json.delimits r = true ->
  s <> [] /\ (x = [] -> r = s).
Proof.
  unfold Json.match_exponent. intros H D.
  destruct s as [|c s]. { injection H as <- <-. discriminate D. }
  split; [discriminate|]. intros ->.
  destruct ((c =? chr "e") || (c =? chr "E")); [|injection H as <-; reflexivity].
  destruct s as [|g s']; [simpl in H; injection H as <-; reflexivity|].
  destruct ((g =? chr "-") || (g =? chr "+")).
  - destruct (Json.span_digits s') as [[|d ds] r']; [|discriminate H].
    injection H as <-. reflexivity.
  - destruct (Json.span_digits (g :: s')) as [[|d ds] r']; [|discriminate H].
    injection H as <-. reflexivity.
Qed.

Lemma match_fraction_app (s f r u : pystr) :
  Json.match_fraction s = (f, r) -> r <> [] ->
  (f = [] -> Json.delimits r = true \/ exists c t, r = c :: t /\ c <> chr ".") ->
  Json.match_fraction (s ++ u) = (f, r ++ u).
Proof.
  unfold Json.match_fraction. intros H Hr D.
  destruct s as [|c s]. { injection H as <- <-. congruence. }
  rewrite <- app_comm_cons.
  destruct (c =? chr ".") eqn:Ec.
  - apply N.eqb_eq in Ec. subst c.
    destruct (Json.span_digits s) as [[|d ds] r'] eqn:E.
    + injection H as <- <-.
      destruct (D eq_refl) as [D'|(c & t & [= <- <-] & Hne)];
        [discriminate D' | exfalso; apply Hne; reflexivity].
    + injection H as <- <-. rewrite (span_digits_app _ _ _ u E Hr). reflexivity.
  - injection H as <- <-. reflexivity.
Qed.

Lemma match_number_app (s : pystr) (v : value) (r u : pystr) :
  Json.match_number s = Some (v, r) -> Json.delimits r = true ->
  Json.match_number (s ++ u) = Some (v, r ++ u).
Proof.
  unfold Json.match_number. intros H D.
  destruct (Json.match_integer s) as [[i r0]|] eqn:Ei; [|discriminate H].
  destruct (Json.match_fraction r0) as [f r1] eqn:Ef.
  destruct (Json.match_exponent r1) as [x r2] eqn:Ex.
  assert (R : r2 = r) by (destruct f, x; injection H as _ <-; reflexivity).
  subst r2.
  destruct (match_exponent_delimits _ _ _ Ex D) as (N1 & X1).
  assert (N0 : r0 <> []).
  { intros ->. rewrite match_fraction_nil in Ef. injection Ef as _ <-.
    congruence. }
  rewrite (match_integer_app _ _ _ u Ei N0).
  rewrite (match_fraction_app _ _ _ u Ef N1).
  - rewrite (match_exponent_app _ _ _ u Ex D).
    destruct f, x; injection H as <-; reflexivity.
  - intros ->. destruct x as [|e x].
    + left. rewrite <- (X1 eq_refl). exact D.
    + right. unfold Json.match_exponent in Ex.
      destruct r1 as [|c t]; [congruence|]. exists c, t. split; [reflexivity|].
      intros ->. simpl in Ex. discriminate Ex.
Qed.

Lemma startswith_app (s p u : pystr) :
  startswith s p = true -> startswith (s ++ u) p = true.
Proof.
  revert s. induction p as [|a p IH]; intros [|c s]; simpl; auto.
  - intros _. destruct u; reflexivity.
  - intros H. discriminate H.
  - rewrite !andb_true_iff. intros [-> H]. auto.
Qed.

Lemma str_length (word : string) :
  List.length (str word) = String.length word.
Proof.
  unfold str. rewrite length_map. induction word; simpl; auto.
Qed.

Lemma keyword_app (s : pystr) (word : string) (v v' : value) (r u : pystr) :
  Json.keyword s word v = Some (v', r) ->
  Json.keyword (s ++ u) word v = Some (v', r ++ u).
Proof.
  unfold Json.keyword. destruct (startswith s (str word)) eqn:E; [|discriminate].
  intros [= <- <-]. rewrite (startswith_app _ _ u E).
  apply startswith_length in E. rewrite str_length in E.
  rewrite skipn_app. replace (String.length word - List.length s)%nat with 0%nat by lia.
  reflexivity.
Qed.

Lemma keyword_cons (c : N) (s : pystr) (a : ascii) (w : string) (v : value) :
  Json.keyword (c :: s) (String a w) v
  = if (c =? N_of_ascii a) && startswith s (str w)
    then Some (v, skipn (String.length w) s) else None.
Proof. reflexivity. Qed.

Lemma keyword_initial (c : N) (s : pystr) (word : string) (v : value)
    (x : value * pystr) :
  word <> ""%string ->
  Json.keyword (c :: s) word v = Some x -> c = Json.initial word.
Proof.
  destruct word as [|a w]; [congruence|]. intros _. rewrite keyword_cons.
  cbn [Json.initial]. destruct (c =? N_of_ascii a) eqn:E; [|discriminate].
  intros _. apply N.eqb_eq. exact E.
Qed.

Lemma keyword_other (c : N) (s : pystr) (word : string) (v : value) :
  word <> ""%string ->
  c <> Json.initial word -> Json.keyword (c :: s) word v = None.
Proof.
  destruct word as [|a w]; [congruence|]. intros _ H. rewrite keyword_cons.
  cbn [Json.initial] in H. apply N.eqb_neq in H. rewrite H. reflexivity.
Qed.

Lemma match_number_initial (c : N) (s : pystr) (x : value * pystr) :
  Json.match_number (c :: s) = Some x -> c = chr "-" \/ Json.is_digit c = true.
Proof.
  unfold Json.match_number, Json.match_integer.
  destruct (c =? chr "-") eqn:E; [left; apply N.eqb_eq; exact E|].
  destruct (c =? chr "0") eqn:E0.
  { apply N.eqb_eq in E0. subst. right. reflexivity. }
  destruct (Json.is_digit c); [auto | discriminate].
Qed.

Lemma match_number_other (c : N) (s : pystr) :
  c <> chr "-" -> Json.is_digit c = false -> Json.match_number (c :: s) = None.
Proof.
  intros H D. unfold Json.match_number, Json.match_integer.
  apply N.eqb_neq in H. rewrite H.
  destruct (c =? chr "0") eqn:E0.
  { apply N.eqb_eq in E0. subst. discriminate D. }
  rewrite D. reflexivity.
Qed.

Lemma is_digit_range (c : N) : Json.is_digit c = true -> 48 <= c <= 57.
Proof.
  unfold Json.is_digit. rewrite andb_true_iff, !N.leb_le. auto.
Qed.

Ltac keyword_found H :=
  match type of H with
  | Json.keyword (?c :: ?s) ?w ?v = Some ?x =>
      let E := fresh "E" in
      assert (E : c = Json.initial w)
        by (apply (keyword_initial c s w v x); [discriminate | exact H]);
      cbv in E; subst c
  end.

(** An atom that is followed by something that ends it is read the same
    whatever comes after. *)
Lemma atom_app (s : pystr) (v : value) (r u : pystr) :
  Json.atom s = Some (v, r) -> Json.delimits r = true ->
  Json.atom (s ++ u) = Some (v, r ++ u).
Proof.
  destruct s as [|c s]; [discriminate|]. rewrite <- app_comm_cons.
  unfold Json.atom. intros H D.
  apply first_of_some in H as [H | [_ H]].
  { rewrite app_comm_cons, (keyword_app _ _ _ _ _ u H). reflexivity. }
  apply first_of_some in H as [H | [_ H]].
  { keyword_found H.
    rewrite app_comm_cons, (keyword_app _ _ _ _ _ u H). reflexivity. }
  apply first_of_some in H as [H | [_ H]].
  { keyword_found H.
    rewrite app_comm_cons, (keyword_app _ _ _ _ _ u H). reflexivity. }
  apply first_of_some in H as [H | [N H]].
  { pose proof (match_number_app _ _ _ u H D) as A.
    rewrite <- app_comm_cons in A.
    destruct (match_number_initial _ _ _ H) as [-> | Dc].
    - rewrite A. reflexivity.
    - apply is_digit_range in Dc.
      rewrite !keyword_other by (try discriminate; cbv; lia).
      rewrite A. reflexivity. }
  apply first_of_some in H as [H | [_ H]].
  { keyword_found H.
    rewrite app_comm_cons, (keyword_app _ _ _ _ _ u H). reflexivity. }
  apply first_of_some in H as [H | [_ H]].
  { keyword_found H.
    rewrite app_comm_cons, (keyword_app _ _ _ _ _ u H). reflexivity. }
  keyword_found H.
  pose proof (keyword_app _ _ _ _ _ u H) as A. rewrite <- app_comm_cons in A.
  rewrite A.
  destruct s as [|i s]; [discriminate H|].
  unfold Json.keyword in H. simpl in H.
  destruct (i =? 73) eqn:Ei; [|discriminate H]. apply N.eqb_eq in Ei. subst i.
  reflexivity.
Qed.

(** A value that stands by itself, or is followed by something that ends
    it, is read the same whatever comes after. *)
Lemma keyword_value (s : pystr) (word : string) (v v' : value) (r : pystr) :
  Json.keyword s word v = Some (v', r) -> v' = v.
Proof.
  unfold Json.keyword. destruct (startswith s (str word)); [|discriminate].
  intros [= <- _]. reflexivity.
Qed.

Lemma match_number_open (s : pystr) (v : value) (r : pystr) :
  Json.match_number s = Some (v, r) -> Json.closed v = false.
Proof.
  unfold Json.match_number.
  destruct (Json.match_integer s) as [[i r0]|]; [|discriminate].
  destruct (Json.match_fraction r0) as [f r1].
  destruct (Json.match_exponent r1) as [x r2].
  destruct f, x; intros [= <- _]; reflexivity.
Qed.

Lemma atom_open (s : pystr) (v : value) (r : pystr) :
  Json.atom s = Some (v, r) -> Json.closed v = false.
Proof.
  unfold Json.atom. intros H.
  repeat (apply first_of_some in H as [H | [_ H]];
          [first [ apply keyword_value in H; subst v; reflexivity
                 | apply match_number_open in H; exact H ] |]).
  apply keyword_value in H. subst v. reflexivity.
Qed.

Lemma parse_app (fuel : nat) :
  (forall s v r, Json.scan_once fuel s = Some (v, r) ->
                 Json.closed v || Json.delimits r = true ->
                 forall u, Json.scan_once fuel (s ++ u) = Some (v, r ++ u))
  /\ (forall pairs s v r, Json.JSONObject fuel pairs s = Some (v, r) ->
                          forall u, Json.JSONObject fuel pairs (s ++ u)
                                    = Some (v, r ++ u))
  /\ (forall items s v r, Json.JSONArray fuel items s = Some (v, r) ->
                          forall u, Json.JSONArray fuel items (s ++ u)
                                    = Some (v, r ++ u)).
Proof.
  induction fuel as [|fuel (IHv & IHo & IHa)].
  - repeat split; intros; discriminate.
  - split; [|split].
    + intros s v r H C u. cbn [Json.scan_once] in *.
      destruct s as [|c r0]; [discriminate H|]. rewrite <- app_comm_cons.
      destruct (c =? 34).
      { destruct (Json.scanstring r0) as [[text r']|] eqn:E; [|discriminate H].
        injection H as <- <-. rewrite (scanstring_app _ _ _ u E). reflexivity. }
      destruct (c =? chr "{").
      { destruct (Json.skip_ws r0) as [|c' r'] eqn:E; [discriminate H|].
        rewrite (skip_ws_app _ u _ _ E).
        destruct (c' =? chr "}"). { injection H as <- <-. reflexivity. }
        destruct (c' =? 34); [|discriminate H]. apply IHo. exact H. }
      destruct (c =? chr "[").
      { destruct (Json.skip_ws r0) as [|c' r'] eqn:E; [discriminate H|].
        rewrite (skip_ws_app _ u _ _ E).
        destruct (c' =? chr "]"). { injection H as <- <-. reflexivity. }
        rewrite app_comm_cons. apply IHa. exact H. }
      rewrite app_comm_cons. apply atom_app; [exact H|].
      destruct (Json.closed v) eqn:Cv; [|exact C].
      rewrite (atom_open _ _ _ H) in Cv. discriminate Cv.
    + intros pairs s v r H u. cbn [Json.JSONObject] in *.
      destruct (Json.scanstring s) as [[key r1]|] eqn:E1; [|discriminate H].
      rewrite (scanstring_app _ _ _ u E1).
      destruct (Json.skip_ws r1) as [|c r2] eqn:E2; [discriminate H|].
      rewrite (skip_ws_app _ u _ _ E2).
      destruct (c =? chr ":"); [|discriminate H].
      destruct (Json.scan_once fuel (Json.skip_ws r2)) as [[v0 r3]|] eqn:E3;
        [|discriminate H].
      destruct (Json.skip_ws r3) as [|c' r4] eqn:E4; [discriminate H|].
      assert (Hs : Json.skip_ws r2 <> []) by (intros A; rewrite A in E3;
                                              destruct fuel; discriminate E3).
      destruct (Json.skip_ws r2) as [|a r2'] eqn:E2'; [congruence|].
      rewrite (skip_ws_app _ u _ _ E2').
      assert (D : Json.delimits r3 = true \/ ((c' =? chr "}") || (c' =? chr ",")) = false).
      { destruct ((c' =? chr "}") || (c' =? chr ",")) eqn:Ec; [left|auto].
        apply (delimits_after_skip _ _ _ E4).
        apply orb_true_iff in Ec as [Ec|Ec]; rewrite Ec;
          rewrite ?orb_true_r; reflexivity. }
      destruct D as [D|D].
      * rewrite app_comm_cons, (IHv _ _ _ E3) by (rewrite D; apply orb_true_r).
        rewrite (skip_ws_app _ u _ _ E4).
        destruct (c' =? chr "}"). { injection H as <- <-. reflexivity. }
        destruct (c' =? chr ","); [|discriminate H].
        destruct (Json.skip_ws r4) as [|q r5] eqn:E5; [discriminate H|].
        rewrite (skip_ws_app _ u _ _ E5).
        destruct (q =? 34); [|discriminate H]. apply IHo. exact H.
      * apply orb_false_iff in D as [D1 D2]. rewrite D1, D2 in H. discriminate H.
    + intros items s v r H u. cbn [Json.JSONArray] in *.
      destruct (Json.scan_once fuel s) as [[v0 r1]|] eqn:E1; [|discriminate H].
      destruct (Json.skip_ws r1) as [|c r2] eqn:E2; [discriminate H|].
      assert (D : Json.delimits r1 = true \/ ((c =? chr "]") || (c =? chr ",")) = false).
      { destruct ((c =? chr "]") || (c =? chr ",")) eqn:Ec; [left|auto].
        apply (delimits_after_skip _ _ _ E2).
        apply orb_true_iff in Ec as [Ec|Ec]; rewrite Ec;
          rewrite ?orb_true_r; reflexivity. }
      destruct D as [D|D].
      * rewrite (IHv _ _ _ E1) by (rewrite D; apply orb_true_r).
        rewrite (skip_ws_app _ u _ _ E2).
        destruct (c =? chr "]"). { injection H as <- <-. reflexivity. }
        destruct (c =? chr ","); [|discriminate H].
        assert (Hs : Json.skip_ws r2 <> []).
        { intros A. rewrite A in H. destruct fuel; [discriminate H|].
          cbn [Json.JSONArray] in H. destruct fuel; discriminate H. }
        destruct (Json.skip_ws r2) as [|a r2'] eqn:E2'; [congruence|].
        rewrite (skip_ws_app _ u _ _ E2'). rewrite app_comm_cons.
        apply IHa. exact H.
      * apply orb_false_iff in D as [D1 D2]. rewrite D1, D2 in H. discriminate H.
Qed.

(** The fuel [loads] gives is enough: whatever any amount of fuel finds
    in the text, [loads] finds. *)
Lemma loads_fuel (fuel : nat) (s : pystr) (x : value * pystr) :
  Json.scan_once fuel (Json.skip_ws s) = Some x ->
  Json.scan_once (S (List.length s)) (Json.skip_ws s) = Some x.
Proof.
  destruct x as [v r]. intros H.
  pose proof (proj1 (parse_length fuel) _ _ _ H).
  pose proof (skip_ws_length s).
  apply (proj1 (parse_fuel_read fuel) _ _ _ H). lia.
Qed.

(** After a text that is a string, an array or an object by itself, nothing
    but whitespace may follow. *)
Lemma loads_extend (t u : pystr) (v : value) :
  Json.loads t = Some v -> Json.closed v = true -> Json.skip_ws u <> [] ->
  Json.loads (t ++ u) = None.
Proof.
  unfold Json.loads. intros H C U.
  destruct (startswith t [65279]) eqn:B; [discriminate H|].
  destruct (Json.scan_once (S (List.length t)) (Json.skip_ws t))
    as [[v' r]|] eqn:E; [|discriminate H].
  destruct (Json.skip_ws r) eqn:R; [|discriminate H]. injection H as ->.
  destruct (Json.skip_ws t) as [|a t'] eqn:T; [discriminate E|].
  assert (B' : startswith (t ++ u) [65279] = false).
  { destruct t as [|b t0]; [discriminate T|]. simpl in *.
    destruct (b =? 65279); [|reflexivity]. destruct t0; discriminate B. }
  rewrite B', (skip_ws_app _ u _ _ T).
  pose proof (proj1 (parse_app _) _ _ _ E ltac:(rewrite C; reflexivity) u) as A.
  rewrite <- app_comm_cons in A.
  rewrite (proj1 (parse_more_fuel _) _ _ A (S (List.length (t ++ u))))
    by (rewrite length_app; lia).
  rewrite (skip_ws_nil_app _ u R).
  destruct (Json.skip_ws u); [congruence | reflexivity].
Qed.

Lemma skip_ws_in (c : N) (s : pystr) :
  In c s -> Json.is_ws c = false -> Json.skip_ws s <> [].
Proof.
  induction s as [|a s IH]; simpl; [tauto|].
  intros [->|I] W; [rewrite W; discriminate|].
  destruct (Json.is_ws a); [auto | discriminate].
Qed.

Lemma lstrip_suffix (s : pystr) (c : N) : In c (lstrip s) -> In c s.
Proof.
  destruct (lstrip_spec s) as (ws & E & _). intros I. rewrite E.
  apply in_or_app. auto.
Qed.

(** A line that closes a block holds a closing brace. *)
Lemma closes_spec (line : pystr) :
  Spec.closes line = true -> In (chr "}") line.
Proof.
  unfold Spec.closes, endswith, strip. intros H.
  apply lstrip_suffix. destruct (rstrip_prefix (lstrip line)) as (t & E).
  rewrite E. apply in_or_app. left. apply in_rev.
  destruct (rev (rstrip (lstrip line))) as [|c r]; [discriminate H|].
  simpl in H. apply andb_true_iff in H as [Hc _]. apply N.eqb_eq in Hc.
  subst c. left. reflexivity.
Qed.

(** The lines of a block complete a JSON text only at the end: no shorter
    run of them that ends with a closing line does. *)
Lemma first_completion (first : pystr) (m1 : list pystr) (l : pystr)
    (m2 : list pystr) (last : pystr) (block : value) :
  Spec.opens first = true ->
  Spec.closes last = true ->
  Json.loads (join [] (first :: (m1 ++ l :: m2) ++ [last])) = Some block ->
  Json.loads (join [] (first :: m1 ++ [l])) = None.
Proof.
  intros Ho Hc L.
  destruct (Json.loads (join [] (first :: m1 ++ [l]))) as [v|] eqn:E;
    [|reflexivity].
  exfalso.
  assert (C : Json.closed v = true).
  { rewrite join_nil_cons in E. destruct (loads_object _ _ _ Ho E) as (d & ->).
    reflexivity. }
  replace (first :: (m1 ++ l :: m2) ++ [last])
    with ((first :: m1 ++ [l]) ++ (m2 ++ [last])) in L
    by (simpl; rewrite <- !app_assoc; reflexivity).
  rewrite join_nil_app in L.
  rewrite (loads_extend _ _ _ E C) in L; [discriminate L|].
  apply (skip_ws_in (chr "}")); [|reflexivity].
  rewrite join_nil_app. apply in_or_app. right. simpl.
  apply closes_spec. exact Hc.
Qed.

(** ** The output scraper *)

Import MCPBackend.

Lemma is_listing_dict (request_type : pystr) (d : dict) :
  exists b, is_listing request_type (VDict d) = Ok b.
Proof. unfold is_listing. destruct (str_eqb _ _); simpl; eauto. Qed.

Lemma is_call_result_dict (request_type : pystr) (d : dict) :
  exists b, is_call_result request_type (VDict d) = Ok b.
Proof.
  unfold is_call_result. destruct (str_eqb _ _); simpl; eauto.
  destruct (dict_in _ d); eauto.
Qed.

Lemma gathering_append (json_lines : list pystr) (line : pystr) :
  Spec.gathering true json_lines -> Spec.gathering true (json_lines ++ [line]).
Proof.
  intros G _. destruct (G eq_refl) as (first & others & -> & Ho).
  exists first, (others ++ [line]). split; [reflexivity | assumption].
Qed.

Lemma gathered_is_dict (json_lines : list pystr) (v : value) :
  Spec.gathering true json_lines ->
  Json.loads (join [] json_lines) = Some v ->
  exists d, v = VDict d.
Proof.
  intros G H. destruct (G eq_refl) as (first & others & -> & Ho).
  rewrite join_nil_cons in H. eapply loads_object; eassumption.
Qed.

(** The loop never raises, and what it returns is a dictionary. *)
Lemma scan_lines_total (request_type : pystr) (lines : list pystr) :
  forall in_json json_lines,
    Spec.gathering in_json json_lines ->
    exists found,
      scan_lines request_type lines in_json json_lines = Ok found
      /\ forall v, found = Some v -> exists d, v = VDict d.
Proof.
  induction lines as [|line rest IH]; intros in_json json_lines G.
  - exists None. split; [reflexivity | discriminate].
  - cbn [scan_lines].
    destruct (startswith (strip line) (str "{")) eqn:Ho.
    { apply IH. intros _. exists line, []. auto. }
    destruct in_json; [|apply IH; intros; discriminate].
    pose proof (gathering_append _ line G) as G'.
    destruct (endswith (strip line) (str "}")
              && _is_complete_json (join [] (json_lines ++ [line])));
      [|apply IH; assumption].
    destruct (Json.loads (join [] (json_lines ++ [line]))) as [v|] eqn:L;
      [|apply IH; assumption].
    destruct (gathered_is_dict _ _ G' L) as (d & ->).
    destruct (is_listing_dict request_type d) as ([|] & ->); simpl.
    { eexists; split; [reflexivity|]. intros ? [= <-]. eauto. }
    destruct (is_call_result_dict request_type d) as ([|] & ->); simpl.
    { eexists; split; [reflexivity|]. intros ? [= <-]. eauto. }
    apply IH. intros; discriminate.
Qed.

(** [_extract_json_from_output] never raises and returns a dictionary. *)
Lemma extract_total (output request_type : pystr) :
  exists d, _extract_json_from_output output request_type = Ok (VDict d).
Proof.
  unfold _extract_json_from_output.
  destruct (scan_lines_total request_type (Py.split output 10) false [])
    as ([v|] & -> & D); [intros; discriminate| |]; simpl.
  - destruct (D v eq_refl) as (d & ->). eauto.
  - destruct (str_eqb _ _); eexists; reflexivity.
Qed.

(** Lines that open nothing, read outside a block, change nothing. *)
Lemma scan_lines_skip (request_type : pystr) (before rest : list pystr)
    (json_lines : list pystr) :
  Forall (fun l => Spec.opens l = false) before ->
  scan_lines request_type (before ++ rest) false json_lines
  = scan_lines request_type rest false json_lines.
Proof.
  induction 1 as [|l before Hl _ IH]; [reflexivity|].
  simpl. unfold Spec.opens in Hl. rewrite Hl. exact IH.
Qed.

(** Inside a block, lines that neither open another nor complete this one
    are gathered. *)
Lemma scan_lines_gather (request_type : pystr) (first : pystr)
    (rest : list pystr) (middle : list pystr) :
  forall gathered,
    Forall (fun l => Spec.opens l = false) middle ->
    (forall m1 l m2,
        middle = m1 ++ l :: m2 ->
        Spec.closes l = true ->
        Json.loads (join [] (first :: gathered ++ m1 ++ [l])) = None) ->
    scan_lines request_type (middle ++ rest) true (first :: gathered)
    = scan_lines request_type rest true (first :: gathered ++ middle).
Proof.
  induction middle as [|l middle IH]; intros gathered F P.
  - rewrite app_nil_r. reflexivity.
  - inversion F as [|? ? Hl F']; subst.
    cbn [scan_lines app]. unfold Spec.opens in Hl. rewrite Hl.
    assert (C : endswith (strip l) (str "}")
                && _is_complete_json (join [] (first :: gathered ++ [l]))
                = false).
    { destruct (endswith (strip l) (str "}")) eqn:Hc; [|reflexivity].
      unfold _is_complete_json.
      pose proof (P [] l middle eq_refl Hc) as P0. cbn [app] in P0.
      rewrite P0. reflexivity. }
    rewrite C, IH.
    + rewrite <- app_assoc. reflexivity.
    + assumption.
    + intros m1 l' m2 -> Hc. rewrite <- app_assoc.
      apply (P (l :: m1) l' m2); [reflexivity | assumption].
Qed.








(** ** The operations of the backend, world by world *)

Lemma get_tools_list_run (self : t) (w : world) :
  run (_get_tools_list self) w
  = (Spec.answer (str "tools/list") w, Spec.invocation_trace self w).
Proof.
  destruct w as [e | e | rc out err]; try reflexivity.
  - destruct e; reflexivity.
  - unfold run, _get_tools_list, Asyncio.bind, try_except, create_subprocess_exec,
      wait_for_communicate, pure, Asyncio.raise. simpl.
    destruct (rc =? 0)%Z; simpl.
    + destruct (decode out); reflexivity.
    + destruct (nonempty err); [destruct (decode err)|]; reflexivity.
Qed.

Lemma execute_tool_run (self : t) (name : pystr) (arguments : value) (w : world) :
  name <> [] ->
  run (_execute_tool self (Some name) arguments) w
  = (Spec.answer (str "tools/call") w, Spec.invocation_trace self w).
Proof.
  intros Hn. unfold _execute_tool, given.
  destruct name as [|c name]; [congruence|]. cbn [nonempty negb].
  destruct w as [e | e | rc out err]; try reflexivity.
  - destruct e; reflexivity.
  - unfold run, Asyncio.bind, try_except, create_subprocess_exec,
      wait_for_communicate, pure, Asyncio.raise. simpl.
    destruct (rc =? 0)%Z; simpl.
    + destruct (decode out); reflexivity.
    + destruct (nonempty err); [destruct (decode err)|]; reflexivity.
Qed.

Lemma execute_tool_unnamed (self : t) (tool_name : option pystr)
    (arguments : value) (w : world) :
  given tool_name = false ->
  run (_execute_tool self tool_name arguments) w
  = (Raise (ValueError (str "Tool name is required")), []).
Proof. intros G. unfold _execute_tool. rewrite G. reflexivity. Qed.

Lemma call_mcp_tool_run (self : t) (method : pystr) (params : option Params)
    (w : world) :
  run (call_mcp_tool self method params) w
  = (Ok (match fst (run (dispatch self method params) w) with
         | Ok v => v
         | Raise e => failure e
         end),
     snd (run (dispatch self method params) w)).
Proof.
  unfold run, call_mcp_tool, try_except.
  destruct (dispatch self method params w []) as [[v|e] tr]; reflexivity.
Qed.

Lemma answer_is_dict (request_type : pystr) (w : world) (v : value) :
  Spec.answer request_type w = Ok v -> exists d, v = VDict d.
Proof.
  destruct w as [e | e | rc out err]; simpl.
  - discriminate.
  - destruct e; discriminate.
  - destruct (rc =? 0)%Z.
    + destruct (decode out) as [output|]; simpl; [|discriminate].
      destruct (extract_total output request_type) as (d & ->).
      intros [= <-]. eauto.
    + destruct (if nonempty err then decode err else Ok (str "Unknown error"));
        discriminate.
Qed.



(** A handler that returns what [call_mcp_tool] returned, and turns an
    exception into status 500, always returns. *)
Lemma route_run (backend : t) (method_ : pystr) (params_ : option Params)
    (w : world) :
  run (try_except
         (result_ <- call_mcp_tool backend method_ params_ ;;
          ret (Routes.returns result_))%io
         (fun e => ret (Routes.HTTPException 500 (str_exn e)))) w
  = (Ok (Routes.returns
           match fst (run (dispatch backend method_ params_) w) with
           | Ok v => v
           | Raise e => failure e
           end),
     snd (run (dispatch backend method_ params_) w)).
Proof.
  pose proof (call_mcp_tool_run backend method_ params_ w) as R.
  unfold run, try_except, Asyncio.bind in *. rewrite R. reflexivity.
Qed.



(** ** Which operations invoke the backend, and how *)

(** C4, as amended.  Listing the tools and executing a tool (whose name is
    given) each spawn the executable once, with no arguments and both
    output streams captured, and wait for it under the configured timeout;
    what they ask of the world is the same whatever the tool and the
    arguments.  Describing a tool reads the static table and spawns
    nothing. *)
Theorem invocations_of_the_operations (self : t) (w : world) :
  snd (run (_get_tools_list self) w) = Spec.invocation_trace self w
  /\ (forall name_ arguments_,
        name_ <> [] ->
        snd (run (_execute_tool self (Some name_) arguments_) w)
        = Spec.invocation_trace self w)
  /\ (forall tool_name, snd (run (_get_tool_schema self tool_name) w) = [])
  /\ (exists rest,
        Spec.invocation_trace self w
        = Spawn {| program := str_of_path (executable_path self);
                   args := [];
                   cwd := working_directory self;
                   stdin := Inherited;
                   stdout := PIPE;
                   stderr := PIPE |} :: rest
        /\ (rest = []
            \/ rest = [WaitFor (timeout self)]
            \/ rest = [WaitFor (timeout self); Kill])).
Proof.
  split; [|split; [|split]].
  - rewrite get_tools_list_run. reflexivity.
  - intros name_ arguments_ Hn. rewrite execute_tool_run by assumption.
    reflexivity.
  - intros [[|c n]|]; try reflexivity.
    unfold run, _get_tool_schema. cbn [nonempty negb].
    destruct (dict_get (c :: n) schemas); reflexivity.
  - destruct w as [e | e | rc out err]; [| destruct e |]; eexists;
      (split; [reflexivity | auto]).
Qed.

(** Executing a tool while the backend would time out. *)
Lemma invocations_of_the_operations_witness :
  snd (run (_execute_tool Demo.backend (Some (str "expr_par_load")) (VDict []))
           TimesOut)
  = Spec.invocation_trace Demo.backend TimesOut.
Proof.
  apply (proj1 (proj2 (invocations_of_the_operations Demo.backend TimesOut))).
  discriminate.
Defined.

(** C4, as stated, fails.  Describing a tool spawns nothing: the schema of
    [expr_par_load] comes back, and the trace is empty, in a world where
    the backend would time out. *)
Lemma schema_lookup_spawns_nothing :
  exists schema_,
    run (_get_tool_schema Demo.backend (Some (str "expr_par_load"))) TimesOut
    = (Ok schema_, [])
    /\ dict_get (str "name") (match schema_ with VDict d => d | _ => [] end)
       = Some (VStr (str "expr_par_load")).
Proof. eexists. split; reflexivity. Qed.

(** ** Timeouts and failing exits *)

(** C9, as amended.  For both operations that invoke the backend: when the
    timeout elapses the process is killed and the failure "MCP backend
    timeout" is raised; when the process exits with a non-zero status the
    failure raised carries the placeholder "Unknown error" if the error
    stream is empty, and the error stream decoded as UTF-8 otherwise; when
    the error stream is not valid UTF-8 the failure raised is the decoding
    error. *)
Theorem timeout_and_failing_exit (self : t) :
  (Spec.reports self TimesOut (RuntimeError (str "MCP backend timeout"))
   /\ Spec.invocation_trace self TimesOut
      = [Spawn (Spec.invocation self); WaitFor (timeout self); Kill])
  /\ (forall rc out,
        rc <> 0%Z ->
        Spec.reports self (Exits rc out [])
          (RuntimeError (str "MCP backend failed: Unknown error")))
  /\ (forall rc out err text_,
        rc <> 0%Z -> err <> [] -> decode err = Ok text_ ->
        Spec.reports self (Exits rc out err)
          (RuntimeError (str "MCP backend failed: " ++ text_)))
  /\ (forall rc out err e,
        rc <> 0%Z -> err <> [] -> decode err = Raise e ->
        Spec.reports self (Exits rc out err) e).
Proof.
  assert (R : forall w e,
             Spec.answer (str "tools/list") w = Raise e ->
             Spec.answer (str "tools/call") w = Raise e ->
             Spec.reports self w e).
  { intros w e A1 A2. split.
    - rewrite get_tools_list_run, A1. reflexivity.
    - intros name_ arguments_ Hn. rewrite execute_tool_run, A2 by assumption.
      reflexivity. }
  split; [split; [apply R|]; reflexivity|].
  split; [|split].
  - intros rc out Hrc. apply Z.eqb_neq in Hrc.
    apply R; simpl; rewrite Hrc; reflexivity.
  - intros rc out [|b err] text_ Hrc He D; [congruence|].
    apply Z.eqb_neq in Hrc.
    apply R; cbn [Spec.answer nonempty]; rewrite Hrc, D; reflexivity.
  - intros rc out [|b err] e Hrc He D; [congruence|].
    apply Z.eqb_neq in Hrc.
    apply R; cbn [Spec.answer nonempty]; rewrite Hrc, D; reflexivity.
Qed.

(** A backend that exits with status 1 after writing "boom" to its error
    stream. *)
Lemma timeout_and_failing_exit_witness :
  Spec.reports Demo.backend (Exits 1 [] (Demo.encode (str "boom")))
    (RuntimeError (str "MCP backend failed: boom")).
Proof.
  apply (proj1 (proj2 (proj2 (timeout_and_failing_exit Demo.backend)))
           1%Z [] (Demo.encode (str "boom")) (str "boom")).
  - discriminate.
  - discriminate.
  - reflexivity.
Defined.

(** C9, as stated, fails.  A backend that exits with status 1 and an error
    stream that is not UTF-8 (the single byte 0xFF): the failure reported
    is the decoding error, which carries neither the stream nor the
    placeholder. *)
Lemma undecodable_error_stream :
  fst (run (_get_tools_list Demo.backend) (Exits 1 [] [xff]))
  = Raise (UnicodeDecodeError
             (str "'utf-8' codec can't decode byte 0xff in position 0: invalid start byte"))
  /\ fst (run (call_mcp_tool Demo.backend (str "tools/list") None)
              (Exits 1 [] [xff]))
     = Ok (failure (UnicodeDecodeError
             (str "'utf-8' codec can't decode byte 0xff in position 0: invalid start byte"))).
Proof. split; vm_compute; reflexivity. Qed.

(** ** The routes *)





(** What [GET /health] answers, world by world: healthy whenever
    [call_mcp_tool] returned, with the number of tools of the listing, and
    none when the backend failed. *)
Lemma health_check_run (backend : t) (w : world) :
  run (Routes.health_check backend) w
  = (Ok match Spec.answer (str "tools/list") w with
        | Ok listing =>
            match
              (tools <- Routes.py_get listing (str "tools") (VList []) ;;
               Routes.len tools)%py
            with
            | Ok n => Routes.returns (Spec.healthy n)
            | Raise e =>
                Routes.JSONResponse 503
                  (VDict [ (str "status", VStr (str "unhealthy"));
                           (str "error", VStr (str_exn e)) ])
            end
        | Raise _ => Routes.returns (Spec.healthy 0)
        end,
     Spec.invocation_trace backend w).
Proof.
  pose proof (call_mcp_tool_run backend (str "tools/list") None w) as R.
  unfold dispatch in R. change (str_eqb (str "tools/list") (str "tools/list"))
    with true in R. cbv iota in R. rewrite get_tools_list_run in R.
  cbn [fst snd] in R.
  unfold run, Routes.health_check, try_except, Asyncio.bind, pure.
  unfold run in R. rewrite R.
  destruct (Spec.answer (str "tools/list") w) as [listing|e]; [|reflexivity].
  destruct (Routes.py_get listing (str "tools") (VList [])) as [tools|];
    [|reflexivity].
  cbn [rbind]. destruct (Routes.len tools); reflexivity.
Qed.

(** C3, the failing input.  [GET /health] while the backend exits with
    status 1 and "boom" on its error stream: the response has status 200
    and says the backend is healthy and accessible, with no tool
    available.  (When the backend exits with status zero and prints a
    listing of six tools, the response is the healthy one with six tools,
    as the claim says.) *)
Lemma health_check_of_a_failing_backend :
  run (Routes.health_check Demo.backend)
      (Exits 1 [] (Demo.encode (str "boom")))
  = (Ok {| Routes.status_code := 200; Routes.content := Spec.healthy 0 |},
     [Spawn (Spec.invocation Demo.backend); WaitFor (VInt 30)])
  /\ Spec.healthy 0
     = VDict [ (str "status", VStr (str "healthy"));
               (str "backend", VStr (str "accessible"));
               (str "tools_available", VInt 0) ]
  /\ run (Routes.health_check Demo.backend)
         (Exits 0 (Demo.encode Demo.spread_listing) [])
     = (Ok {| Routes.status_code := 200; Routes.content := Spec.healthy 6 |},
        [Spawn (Spec.invocation Demo.backend); WaitFor (VInt 30)]).
Proof.
  split; [|split]; [vm_compute; reflexivity | reflexivity |].
  rewrite health_check_run. vm_compute. reflexivity.
Qed.

(** ** The configuration *)

Lemma set_nested_inv (config : value) (section key : pystr) (x config' : value) :
  MCPConfig.set_nested config section key x = Ok config' ->
  exists sections entries,
    config = VDict sections
    /\ dict_get section sections = Some (VDict entries)
    /\ config' = VDict (dict_set section (VDict (dict_set key x entries)) sections).
Proof.
  unfold MCPConfig.set_nested, MCPConfig.getitem, MCPConfig.setitem.
  destruct config as [| | | | | |sections]; try discriminate.
  destruct (dict_get section sections) as [sec|] eqn:E; [|discriminate].
  destruct sec as [| | | | | |entries]; try discriminate.
  simpl. intros [= <-]. eauto.
Qed.

Lemma set_nested_defined (config : value) (section key : pystr) (x : value) :
  Spec.has_section config section ->
  exists config', MCPConfig.set_nested config section key x = Ok config'.
Proof.
  intros (sections & entries & -> & E).
  unfold MCPConfig.set_nested, MCPConfig.getitem. rewrite E. simpl. eauto.
Qed.

Lemma set_nested_keeps_sections (config : value) (section key : pystr)
    (x config' : value) (other : pystr) :
  MCPConfig.set_nested config section key x = Ok config' ->
  Spec.has_section config other ->
  Spec.has_section config' other.
Proof.
  intros H (sections & entries & E & G).
  destruct (set_nested_inv _ _ _ _ _ H) as (sections' & entries' & E' & G' & ->).
  rewrite E in E'. injection E' as <-.
  destruct (str_eqb other section) eqn:Eo.
  - apply str_eqb_eq in Eo. subst other.
    eexists _, _. split; [reflexivity|]. apply dict_get_set_same.
  - apply str_eqb_neq in Eo.
    eexists _, _. split; [reflexivity|].
    rewrite dict_get_set_other by assumption. eassumption.
Qed.

(** After [config[section][key] = x], the key holds [x]... *)
Lemma get_after_set (config : value) (section key : pystr) (x config' : value)
    (default : value) :
  MCPConfig.set_nested config section key x = Ok config' ->
  MCPConfig.get_keys [section; key] config' default = x.
Proof.
  intros H. destruct (set_nested_inv _ _ _ _ _ H) as (s & e & -> & G & ->).
  simpl. rewrite !dict_get_set_same. reflexivity.
Qed.

(** ... and every other key of every section holds what it held. *)
Lemma get_after_set_other (config : value) (section key : pystr)
    (x config' : value) (section' key' : pystr) (default : value) :
  MCPConfig.set_nested config section key x = Ok config' ->
  section' <> section \/ key' <> key ->
  MCPConfig.get_keys [section'; key'] config' default
  = MCPConfig.get_keys [section'; key'] config default.
Proof.
  intros H D. destruct (set_nested_inv _ _ _ _ _ H) as (s & e & -> & G & ->).
  simpl. destruct (str_eqb section' section) eqn:Es.
  - apply str_eqb_eq in Es. subst section'.
    destruct D as [D|D]; [congruence|].
    rewrite dict_get_set_same, G, dict_get_set_other by assumption.
    reflexivity.
  - apply str_eqb_neq in Es. rewrite dict_get_set_other by assumption.
    reflexivity.
Qed.

Ltac str_neq :=
  let E := fresh in
  first [ left; intros E; vm_compute in E; discriminate E
        | right; intros E; vm_compute in E; discriminate E ].

Ltac after_override S :=
  first [ rewrite (get_after_set _ _ _ _ _ _ S)
        | rewrite (get_after_set_other _ _ _ _ _ _ _ _ S) by str_neq ].

(** The overrides can be written into a configuration that has both
    sections, when the port variable, if set, is an integer. *)
Lemma overrides_defined (int : pystr -> result Z) (env : MCPConfig.environ)
    (loaded : value) :
  Spec.has_section loaded (str "server") ->
  Spec.has_section loaded (str "mcp") ->
  (forall v,
      MCPConfig.getenv env (str "MCP_SERVER_PORT") = Some v ->
      exists port, int v = Ok port) ->
  exists config, MCPConfig._apply_env_overrides int env loaded = Ok config.
Proof.
  intros Hs Hm Hp. unfold MCPConfig._apply_env_overrides.
    assert (K : forall c s k x (B : Type) (f : value -> result B),
               Spec.has_section c (str "server") ->
               Spec.has_section c (str "mcp") ->
               (s = str "server" \/ s = str "mcp") ->
               (forall c', Spec.has_section c' (str "server") ->
                           Spec.has_section c' (str "mcp") ->
                           exists r, f c' = Ok r) ->
               exists r, rbind (MCPConfig.set_nested c s k x) f = Ok r).
    { intros c s k x B f H1 H2 Hsec Hf.
      destruct (set_nested_defined c s k x) as (c' & E);
        [destruct Hsec; subst; assumption|].
      rewrite E. cbn [rbind]. apply Hf; eapply set_nested_keeps_sections; eauto. }
    destruct (MCPConfig.getenv env (str "MCP_SERVER_HOST")) as [h|];
      [apply K; auto | cbn [rbind]; revert Hs Hm; generalize loaded];
      intros c1 H1 H2;
      (destruct (MCPConfig.getenv env (str "MCP_SERVER_PORT")) as [p|];
       [destruct (Hp p eq_refl) as (n & ->); cbn [rbind]; apply K; auto
       | cbn [rbind]; revert H1 H2; generalize c1];
       intros c2 H3 H4;
       (destruct (MCPConfig.getenv env (str "MCP_EXECUTABLE_PATH")) as [x|];
        [apply K; auto | cbn [rbind]; revert H3 H4; generalize c2];
        intros c3 H5 H6;
        (destruct (MCPConfig.getenv env (str "MCP_WORKING_DIR")) as [d|];
         [apply (set_nested_defined c3 _ _ _ H6) | eauto]))).
Qed.

(** C6.  When the configuration file is missing or cannot be read or
    parsed, the loader returns the default configuration and nothing else:
    its settings are exactly the documented ones (host 0.0.0.0, port 8080,
    debug false, executable ./mcp_demo, working directory ., timeout 30,
    logging INFO, discovery enabled), each found under its dotted key.
    The loader never raises, whatever becomes of the file.  After a failed
    load the construction of the configuration goes through: to the default
    configuration itself when the environment overrides nothing, and to
    some configuration whenever the port variable, if set, is an integer. *)
Theorem load_config_falls_back_to_defaults :
  (forall e, MCPConfig._load_config (Raise e) = Ok MCPConfig._default_config)
  /\ Spec.settings MCPConfig._default_config = Spec.documented_default
  /\ Forall (fun setting =>
               MCPConfig.get MCPConfig._default_config (fst setting) VNone
               = snd setting)
            Spec.documented_default
  /\ (forall file, exists config, MCPConfig._load_config file = Ok config)
  /\ (forall int e,
        MCPConfig.__init__ int (Raise e) [] = Ok MCPConfig._default_config)
  /\ (forall int e env,
        (forall v,
            MCPConfig.getenv env (str "MCP_SERVER_PORT") = Some v ->
            exists port, int v = Ok port) ->
        exists config, MCPConfig.__init__ int (Raise e) env = Ok config).
Proof.
  assert (L : forall e,
             MCPConfig._load_config (Raise e) = Ok MCPConfig._default_config)
    by (intros e; destruct e; reflexivity).
  split; [exact L|]. split; [reflexivity|]. split; [repeat constructor|].
  split; [|split].
  - intros [v|e]; [exists v; reflexivity | eauto].
  - intros int e. unfold MCPConfig.__init__. rewrite L. reflexivity.
  - intros int e env Hp. unfold MCPConfig.__init__. rewrite L. cbn [rbind].
    apply overrides_defined; [| |assumption];
      eexists _, _; split; reflexivity.
Qed.

(** No configuration file, and a port in the environment. *)
Lemma load_config_falls_back_to_defaults_witness :
  exists config,
    MCPConfig.__init__ Demo.decimal_int
      (Raise (FileNotFoundError
                (str "[Errno 2] No such file or directory: 'config.yaml'")))
      [(str "MCP_SERVER_PORT", str "9090")]
    = Ok config.
Proof.
  apply (proj2 (proj2 (proj2 (proj2 (proj2 load_config_falls_back_to_defaults))))).
  intros v [= <-]. eexists. reflexivity.
Defined.

Ltac crack H :=
  match type of H with
  | context [MCPConfig.set_nested ?a ?b ?c ?x] =>
      let S := fresh "S" in
      let c' := fresh "c" in
      destruct (MCPConfig.set_nested a b c x) as [c'|] eqn:S;
      [|cbn [rbind] in H; discriminate H]
  end;
  cbn [rbind] in H.

(** C7, as amended.  Whenever the construction of the configuration
    succeeds, each of the four overridable keys whose environment variable
    is set holds the value of the variable (for the port, the integer
    [int] reads in it), whatever the file provided.  The construction
    succeeds when the loaded configuration has the two sections the
    overrides are written into, [server] and [mcp], and the port variable,
    if set, is an integer. *)
Theorem env_overrides_take_precedence (int : pystr -> result Z)
    (file : result value) (env : MCPConfig.environ) :
  (forall config,
      MCPConfig.__init__ int file env = Ok config ->
      (forall v default,
          MCPConfig.getenv env (str "MCP_SERVER_HOST") = Some v ->
          MCPConfig.get config (str "server.host") default = VStr v)
      /\ (forall v default,
            MCPConfig.getenv env (str "MCP_SERVER_PORT") = Some v ->
            exists port,
              int v = Ok port
              /\ MCPConfig.get config (str "server.port") default = VInt port)
      /\ (forall v default,
            MCPConfig.getenv env (str "MCP_EXECUTABLE_PATH") = Some v ->
            MCPConfig.get config (str "mcp.executable_path") default = VStr v)
      /\ (forall v default,
            MCPConfig.getenv env (str "MCP_WORKING_DIR") = Some v ->
            MCPConfig.get config (str "mcp.working_directory") default = VStr v))
  /\ (forall loaded,
        MCPConfig._load_config file = Ok loaded ->
        Spec.has_section loaded (str "server") ->
        Spec.has_section loaded (str "mcp") ->
        (forall v,
            MCPConfig.getenv env (str "MCP_SERVER_PORT") = Some v ->
            exists port, int v = Ok port) ->
        exists config, MCPConfig.__init__ int file env = Ok config).
Proof.
  split.
  - intros config H. unfold MCPConfig.__init__, MCPConfig._apply_env_overrides in H.
    destruct (MCPConfig._load_config file) as [c0|]; [|cbn [rbind] in H; discriminate H].
    cbn [rbind] in H. unfold MCPConfig.get.
    change (Py.split (str "server.host") (chr "."))
      with [str "server"; str "host"].
    change (Py.split (str "server.port") (chr "."))
      with [str "server"; str "port"].
    change (Py.split (str "mcp.executable_path") (chr "."))
      with [str "mcp"; str "executable_path"].
    change (Py.split (str "mcp.working_directory") (chr "."))
      with [str "mcp"; str "working_directory"].
    destruct (MCPConfig.getenv env (str "MCP_SERVER_HOST")) as [h|];
      [crack H | cbn [rbind] in H];
      (destruct (MCPConfig.getenv env (str "MCP_SERVER_PORT")) as [p|];
       [destruct (int p) as [n|] eqn:I;
        [cbn [rbind] in H; crack H | cbn [rbind] in H; discriminate H]
       | cbn [rbind] in H];
       (destruct (MCPConfig.getenv env (str "MCP_EXECUTABLE_PATH")) as [x|];
        [crack H | cbn [rbind] in H];
        (destruct (MCPConfig.getenv env (str "MCP_WORKING_DIR")) as [d|];
         [crack H|]; injection H as <-;
         (split; [|split; [|split]]); intros v default Ev;
         try discriminate Ev; injection Ev as <-;
         try (exists n; split; [assumption|]);
         repeat match goal with
                | S : MCPConfig.set_nested _ _ _ _ = Ok ?c
                  |- context [MCPConfig.get_keys _ ?c _] => after_override S
                end;
         reflexivity))).
  - intros loaded L Hs Hm Hp. unfold MCPConfig.__init__. rewrite L.
    cbn [rbind]. apply overrides_defined; assumption.
Qed.

(** A file that sets the four keys, and an environment that overrides all
    four. *)
Lemma env_overrides_take_precedence_witness :
  exists config,
    MCPConfig.__init__ Demo.decimal_int (Ok Demo.config_file) Demo.overrides
    = Ok config
    /\ MCPConfig.get config (str "server.host") VNone = VStr (str "127.0.0.1")
    /\ MCPConfig.get config (str "server.port") VNone = VInt 9090
    /\ MCPConfig.get config (str "mcp.executable_path") VNone
       = VStr (str "/usr/local/bin/mcp_demo")
    /\ MCPConfig.get config (str "mcp.working_directory") VNone
       = VStr (str "/var/lib/mpa").
Proof.
  destruct (proj2 (env_overrides_take_precedence
                     Demo.decimal_int (Ok Demo.config_file) Demo.overrides)
              Demo.config_file eq_refl)
    as (config & E).
  - eexists _, _. split; reflexivity.
  - eexists _, _. split; reflexivity.
  - intros v [= <-]. eexists. reflexivity.
  - exists config. split; [exact E|].
    destruct (proj1 (env_overrides_take_precedence
                       Demo.decimal_int (Ok Demo.config_file) Demo.overrides)
                config E)
      as (H1 & H2 & H3 & H4).
    split; [apply H1; reflexivity|].
    split; [destruct (H2 (str "9090") VNone eq_refl) as (port & I & G);
            rewrite G; injection I as <-; reflexivity|].
    split; [apply H3 | apply H4]; reflexivity.
Defined.

(** C7, as stated, fails.  An empty configuration file loads as [None];
    with the host variable set, the override is written into nothing and
    the construction raises: no merged configuration holds the value. *)
Lemma override_of_an_empty_file :
  MCPConfig._load_config (Ok VNone) = Ok VNone
  /\ MCPConfig.__init__ Demo.decimal_int (Ok VNone)
       [(str "MCP_SERVER_HOST", str "127.0.0.1")]
     = Raise (TypeError (str "'NoneType' object is not subscriptable")).
Proof. split; reflexivity. Qed.

(** ** The constructor of the backend *)



(** ** The schema table *)

Lemma dict_get_in (k : pystr) (d : dict) :
  dict_get k d <> None <-> In k (List.map fst d).
Proof.
  induction d as [|[k' v] d IH]; simpl.
  - split; [congruence | tauto].
  - destruct (str_eqb k k') eqn:E.
    + apply str_eqb_eq in E. subst. split; [auto | discriminate].
    + apply str_eqb_neq in E. rewrite IH. split; [auto|].
      intros [A|A]; [congruence | assumption].
Qed.

Lemma schemas_names : List.map fst schemas = Spec.known_tools.
Proof. reflexivity. Qed.

(** C8, as amended.  The lookup of a schema succeeds exactly for the six
    known tool names.  For every other name it fails: with "Unknown tool"
    and the name when the name is not empty, with "Tool name is required"
    when the name is empty or missing.  The schema of [expr_par_load]
    requires exactly filename, coopMat and repIndicators. *)
Theorem schema_lookup (self : t) (tool_name : option pystr) (w : world) :
  ((exists schema_, run (_get_tool_schema self tool_name) w = (Ok schema_, []))
   <-> exists name_, tool_name = Some name_ /\ In name_ Spec.known_tools)
  /\ (forall name_,
        tool_name = Some name_ ->
        name_ <> [] ->
        ~ In name_ Spec.known_tools ->
        run (_get_tool_schema self tool_name) w
        = (Raise (ValueError (str "Unknown tool: " ++ name_)), []))
  /\ (given tool_name = false ->
      run (_get_tool_schema self tool_name) w
      = (Raise (ValueError (str "Tool name is required")), []))
  /\ (exists schema_,
        run (_get_tool_schema self (Some (str "expr_par_load"))) w
        = (Ok schema_, [])
        /\ Spec.required_fields schema_
           = Some [ VStr (str "filename"); VStr (str "coopMat");
                    VStr (str "repIndicators") ]).
Proof.
  rewrite <- schemas_names.
  split; [|split; [|split]].
  - destruct tool_name as [[|c n]|]; unfold run, _get_tool_schema;
      cbn [nonempty negb].
    + split; [intros (s & E); discriminate E|].
      intros (n & [= <-] & I). vm_compute in I. intuition discriminate.
    + destruct (dict_get (c :: n) schemas) as [s|] eqn:E.
      * split; [|intros _; exists s; reflexivity].
        intros _. exists (c :: n). split; [reflexivity|].
        apply dict_get_in. congruence.
      * split; [intros (s & E'); discriminate E'|].
        intros (n' & [= <-] & I). apply dict_get_in in I. congruence.
    + split; [intros (s & E); discriminate E|].
      intros (n & E & _). discriminate E.
  - intros [|c n] -> Hn Hi; [congruence|].
    unfold run, _get_tool_schema. cbn [nonempty negb].
    destruct (dict_get (c :: n) schemas) eqn:E; [|reflexivity].
    exfalso. apply Hi, dict_get_in. congruence.
  - destruct tool_name as [[|c n]|]; try discriminate; reflexivity.
  - eexists. split; reflexivity.
Qed.

(** A name that is none of the six. *)
Lemma schema_lookup_witness :
  run (_get_tool_schema Demo.backend (Some (str "unknown_tool_xyz"))) TimesOut
  = (Raise (ValueError (str "Unknown tool: unknown_tool_xyz")), []).
Proof.
  apply (proj1 (proj2 (schema_lookup
                         Demo.backend (Some (str "unknown_tool_xyz")) TimesOut))
           (str "unknown_tool_xyz") eq_refl).
  - discriminate.
  - intros H. vm_compute in H. intuition discriminate.
Defined.

(** C8, as stated, fails.  The empty name is none of the six, and its
    lookup fails with "Tool name is required", which is no "Unknown tool"
    message. *)
Lemma empty_name_is_required :
  ~ In [] Spec.known_tools
  /\ run (_get_tool_schema Demo.backend (Some [])) TimesOut
     = (Raise (ValueError (str "Tool name is required")), [])
  /\ contains (str "Tool name is required") (str "Unknown tool") = false.
Proof.
  split; [|split; reflexivity].
  intros H. vm_compute in H. intuition discriminate.
Qed.

(** * Further properties of the code *)

(** ** Splitting at a separator *)

Lemma split_nonempty (s : pystr) (sep : N) : Py.split s sep <> [].
Proof.
  destruct s as [|c s]; simpl; [discriminate|].
  destruct (c =? sep); [discriminate|].
  destruct (Py.split s sep); discriminate.
Qed.

Lemma split_without (k : pystr) (sep : N) :
  ~ In sep k -> Py.split k sep = [k].
Proof.
  induction k as [|c k IH]; intros H; [reflexivity|].
  simpl. destruct (c =? sep) eqn:E.
  - apply N.eqb_eq in E. exfalso. apply H. left. assumption.
  - rewrite IH; [reflexivity|]. intros A. apply H. right. assumption.
Qed.

Lemma split_at (k rest : pystr) (sep : N) :
  ~ In sep k -> Py.split (k ++ sep :: rest) sep = k :: Py.split rest sep.
Proof.
  induction k as [|c k IH]; intros H.
  - simpl. rewrite N.eqb_refl. reflexivity.
  - simpl. destruct (c =? sep) eqn:E.
    + apply N.eqb_eq in E. exfalso. apply H. left. assumption.
    + rewrite IH; [reflexivity|]. intros A. apply H. right. assumption.
Qed.

Lemma split_pieces (s : pystr) (sep : N) :
  Forall (fun piece => ~ In sep piece) (Py.split s sep).
Proof.
  induction s as [|c s IH]; simpl.
  - constructor; [tauto | constructor].
  - destruct (c =? sep) eqn:E.
    + constructor; [tauto | assumption].
    + apply N.eqb_neq in E.
      destruct (Py.split s sep) as [|p ps];
        [repeat constructor; simpl; intuition|].
      inversion IH; subst. constructor; [|assumption].
      simpl. intuition.
Qed.

Lemma split_line (a b : pystr) (sep : N) :
  Py.split (a ++ sep :: b) sep = Py.split a sep ++ Py.split b sep.
Proof.
  induction a as [|c a IH]; simpl.
  - rewrite N.eqb_refl. reflexivity.
  - destruct (c =? sep); [rewrite IH; reflexivity|].
    rewrite IH. pose proof (split_nonempty a sep) as NE.
    destruct (Py.split a sep) as [|p ps]; [congruence | reflexivity].
Qed.

Lemma split_join (pieces : list pystr) (sep : N) :
  Forall (fun piece => ~ In sep piece) pieces ->
  pieces <> [] ->
  Py.split (join [sep] pieces) sep = pieces.
Proof.
  induction pieces as [|p [|q ps] IH]; intros F NE; [congruence| |].
  - inversion F; subst. simpl. apply split_without. assumption.
  - inversion F as [|? ? Hp F']; subst.
    change (join [sep] (p :: q :: ps)) with (p ++ sep :: join [sep] (q :: ps)).
    rewrite split_at by assumption.
    rewrite IH; [reflexivity | assumption | discriminate].
Qed.

(** ** [MCPConfig.get] *)

Lemma get_without_a_dot (config : value) (k : pystr) (default : value) :
  Notions.dotless k ->
  MCPConfig.get config k default
  = match config with
    | VDict d =>
        match dict_get k d with
        | Some v => v
        | None => default
        end
    | _ => default
    end.
Proof.
  intros H. unfold MCPConfig.get. rewrite split_without by exact H.
  reflexivity.
Qed.

Lemma get_at_a_dot (config : value) (k rest : pystr) (default : value) :
  Notions.dotless k ->
  MCPConfig.get config (k ++ chr "." :: rest) default
  = match config with
    | VDict d =>
        match dict_get k d with
        | Some v => MCPConfig.get v rest default
        | None => default
        end
    | _ => default
    end.
Proof.
  intros H. unfold MCPConfig.get. rewrite split_at by exact H.
  reflexivity.
Qed.

Lemma get_of_no_mapping (v : value) (key : pystr) (default : value) :
  (forall d, v <> VDict d) -> MCPConfig.get v key default = default.
Proof.
  intros H. unfold MCPConfig.get.
  pose proof (split_nonempty key (chr ".")) as NE.
  destruct (Py.split key (chr ".")) as [|k ks]; [congruence|].
  destruct v; try reflexivity. exfalso. eapply H. reflexivity.
Qed.

(** X1.  [get] follows the key dot by dot.  Up to its first dot the key
    names an entry of the configuration: when the configuration is no
    mapping or has no such entry the answer is the default; otherwise it is
    the entry itself for a key without a dot (whatever the entry is, a null
    included), and for a longer key what [get] finds for the rest of the key
    in that entry. *)
Theorem get_follows_the_dots (config : value) (k : pystr) (default : value) :
  Notions.dotless k ->
  MCPConfig.get config k default
  = match config with
    | VDict d =>
        match dict_get k d with
        | Some v => v
        | None => default
        end
    | _ => default
    end
  /\ forall rest,
       MCPConfig.get config (k ++ chr "." :: rest) default
       = match config with
         | VDict d =>
             match dict_get k d with
             | Some v => MCPConfig.get v rest default
             | None => default
             end
         | _ => default
         end.
Proof.
  intros H. split.
  - apply get_without_a_dot. exact H.
  - intros rest. apply get_at_a_dot. exact H.
Qed.

(** A section the file leaves empty is a null: the timeout asked under it
    is the default. *)
Lemma get_follows_the_dots_witness :
  MCPConfig.get Cases.hollow (str "mcp.timeout") (VInt 30) = VInt 30.
Proof.
  apply (proj2 (get_follows_the_dots Cases.hollow (str "mcp") (VInt 30)
                  ltac:(intros H; vm_compute in H; intuition discriminate))
           (str "timeout")).
Defined.

Lemma dict_get_skip (k k' : pystr) (v : value) (d1 d2 : dict) :
  k <> k' ->
  dict_get k (d1 ++ (k', v) :: d2) = dict_get k (d1 ++ d2).
Proof.
  intros H. induction d1 as [|[k1 v1] d1 IH]; simpl.
  - destruct (str_eqb k k') eqn:E; [|reflexivity].
    apply str_eqb_eq in E. contradiction.
  - rewrite IH. reflexivity.
Qed.

(** X2.  An entry of the configuration whose own key contains a dot is
    never read: with or without it, [get] answers the same for every key
    and every default. *)
Theorem get_never_reads_a_dotted_entry (d1 d2 : dict) (k : pystr) (v : value)
    (key : pystr) (default : value) :
  In (chr ".") k ->
  MCPConfig.get (VDict (d1 ++ (k, v) :: d2)) key default
  = MCPConfig.get (VDict (d1 ++ d2)) key default.
Proof.
  intros H. unfold MCPConfig.get.
  pose proof (split_pieces key (chr ".")) as F.
  pose proof (split_nonempty key (chr ".")) as NE.
  destruct (Py.split key (chr ".")) as [|seg segs]; [congruence|].
  inversion F as [|? ? Hseg _]; subst.
  cbn [MCPConfig.get_keys]. rewrite dict_get_skip; [reflexivity|].
  intros ->. contradiction.
Qed.

(** A host written under the flat key [server.host] is not found. *)
Lemma get_never_reads_a_dotted_entry_witness :
  MCPConfig.get Cases.flat (str "server.host") (VStr (str "0.0.0.0"))
  = VStr (str "0.0.0.0").
Proof.
  apply (get_never_reads_a_dotted_entry [] [] (str "server.host")
           (VStr (str "10.0.0.1")) (str "server.host") (VStr (str "0.0.0.0"))).
  vm_compute. tauto.
Defined.

(** ** Construction of the configuration *)

(** X3.  When the environment sets none of the four variables, the
    construction of the configuration is the load: what the file holds is
    kept as it is, and the construction succeeds whatever that is.  When the
    file holds no mapping (an empty file holds a null), every [get]
    answers its default. *)
Theorem construction_without_overrides (int : pystr -> result Z)
    (file : result value) (env : MCPConfig.environ) :
  Notions.silent env ->
  MCPConfig.__init__ int file env = MCPConfig._load_config file
  /\ (forall v, file = Ok v -> MCPConfig.__init__ int file env = Ok v)
  /\ (forall v key default,
        file = Ok v ->
        (forall d, v <> VDict d) ->
        exists config,
          MCPConfig.__init__ int file env = Ok config
          /\ MCPConfig.get config key default = default).
Proof.
  intros (H1 & H2 & H3 & H4).
  assert (E : MCPConfig.__init__ int file env = MCPConfig._load_config file).
  { unfold MCPConfig.__init__, MCPConfig._apply_env_overrides.
    rewrite H1, H2, H3, H4.
    destruct (MCPConfig._load_config file); reflexivity. }
  split; [exact E|]. split.
  - intros v ->. rewrite E. reflexivity.
  - intros v key default -> Hv. exists v. split; [rewrite E; reflexivity|].
    apply get_of_no_mapping. exact Hv.
Qed.

(** An empty file, and an environment that sets something else. *)
Lemma construction_without_overrides_witness :
  exists config,
    MCPConfig.__init__ Demo.decimal_int (Ok VNone) [(str "HOME", str "/root")]
    = Ok config
    /\ MCPConfig.get config (str "mcp.timeout") (VInt 30) = VInt 30.
Proof.
  apply (proj2 (proj2 (construction_without_overrides
                         Demo.decimal_int (Ok VNone) [(str "HOME", str "/root")]
                         ltac:(repeat split)))
           VNone (str "mcp.timeout") (VInt 30) eq_refl).
  discriminate.
Defined.




(** The four stages of [_apply_env_overrides], one by one. *)
Lemma overrides_inv (int : pystr -> result Z) (env : MCPConfig.environ)
    (loaded config : value) :
  MCPConfig._apply_env_overrides int env loaded = Ok config ->
  exists c1 c2 c3,
    match MCPConfig.getenv env (str "MCP_SERVER_HOST") with
    | Some v => MCPConfig.set_nested loaded (str "server") (str "host") (VStr v)
    | None => Ok loaded
    end = Ok c1
    /\ match MCPConfig.getenv env (str "MCP_SERVER_PORT") with
       | Some v =>
           exists n,
             int v = Ok n
             /\ MCPConfig.set_nested c1 (str "server") (str "port") (VInt n)
                = Ok c2
       | None => c2 = c1
       end
    /\ match MCPConfig.getenv env (str "MCP_EXECUTABLE_PATH") with
       | Some v =>
           MCPConfig.set_nested c2 (str "mcp") (str "executable_path") (VStr v)
       | None => Ok c2
       end = Ok c3
    /\ match MCPConfig.getenv env (str "MCP_WORKING_DIR") with
       | Some v =>
           MCPConfig.set_nested c3 (str "mcp") (str "working_directory") (VStr v)
       | None => Ok c3
       end = Ok config.
Proof.
  unfold MCPConfig._apply_env_overrides. intros H.
  match type of H with
  | rbind ?m _ = _ => destruct m as [c1|] eqn:S1; [|discriminate H]
  end.
  cbn [rbind] in H.
  match type of H with
  | rbind ?m _ = _ => destruct m as [c2|] eqn:S2; [|discriminate H]
  end.
  cbn [rbind] in H.
  match type of H with
  | rbind ?m _ = _ => destruct m as [c3|] eqn:S3; [|discriminate H]
  end.
  cbn [rbind] in H.
  exists c1, c2, c3. split; [reflexivity|]. split; [|split; assumption].
  destruct (MCPConfig.getenv env (str "MCP_SERVER_PORT")) as [v|].
  - destruct (int v) as [n|]; [|discriminate S2]. exists n. auto.
  - injection S2 as <-. reflexivity.
Qed.



Lemma set_nested_sections (config : value) (section key : pystr)
    (x config' : value) (other : pystr) :
  MCPConfig.set_nested config section key x = Ok config' ->
  Spec.has_section config' other <-> Spec.has_section config other.
Proof.
  intros H. split; [|apply (set_nested_keeps_sections _ _ _ _ _ _ H)].
  destruct (set_nested_inv _ _ _ _ _ H) as (s & e & -> & G & ->).
  intros (s' & e' & [= <-] & G').
  destruct (str_eqb other section) eqn:Eo.
  - apply str_eqb_eq in Eo. subst other.
    eexists _, _. split; [reflexivity | exact G].
  - apply str_eqb_neq in Eo. rewrite dict_get_set_other in G' by assumption.
    eexists _, _. split; [reflexivity | exact G'].
Qed.

Lemma set_nested_section (config : value) (section key : pystr)
    (x config' : value) :
  MCPConfig.set_nested config section key x = Ok config' ->
  Spec.has_section config section.
Proof.
  intros H. destruct (set_nested_inv _ _ _ _ _ H) as (s & e & -> & G & _).
  eexists _, _. split; [reflexivity | exact G].
Qed.

(** One override of a text goes through when the variable is not set or
    the section is there, and it keeps the sections... *)
Lemma override_goes_through (env : MCPConfig.environ) (variable : pystr)
    (config : value) (section key : pystr) :
  (MCPConfig.getenv env variable <> None -> Spec.has_section config section) ->
  exists config',
    match MCPConfig.getenv env variable with
    | Some v => MCPConfig.set_nested config section key (VStr v)
    | None => Ok config
    end = Ok config'
    /\ forall other,
         Spec.has_section config' other <-> Spec.has_section config other.
Proof.
  intros H. destruct (MCPConfig.getenv env variable) as [v|].
  - destruct (set_nested_defined config section key (VStr v)) as (c & E);
      [apply H; discriminate|].
    exists c. split; [exact E|]. intros other.
    apply (set_nested_sections _ _ _ _ _ _ E).
  - exists config. split; [reflexivity|]. reflexivity.
Qed.

(** ... and only then. *)
Lemma override_went_through (env : MCPConfig.environ) (variable : pystr)
    (config : value) (section key : pystr) (config' : value) :
  match MCPConfig.getenv env variable with
  | Some v => MCPConfig.set_nested config section key (VStr v)
  | None => Ok config
  end = Ok config' ->
  (MCPConfig.getenv env variable <> None -> Spec.has_section config section)
  /\ forall other,
       Spec.has_section config' other <-> Spec.has_section config other.
Proof.
  destruct (MCPConfig.getenv env variable) as [v|]; intros H.
  - split; [intros _; apply (set_nested_section _ _ _ _ _ H)|].
    intros other. apply (set_nested_sections _ _ _ _ _ _ H).
  - injection H as <-. split; [congruence | reflexivity].
Qed.

(** X5.  When the overrides go through.  [_apply_env_overrides] returns a
    configuration exactly when three things hold: the loaded configuration
    is a mapping with a [server] section that is a mapping, if the host or
    the port variable is set; it is one with such an [mcp] section, if the
    executable or the working directory variable is set; and [int] accepts
    the port variable, if it is set.  In every other case it raises. *)
Theorem overrides_succeed_exactly_when (int : pystr -> result Z)
    (env : MCPConfig.environ) (loaded : value) :
  (exists config, MCPConfig._apply_env_overrides int env loaded = Ok config)
  <-> ((MCPConfig.getenv env (str "MCP_SERVER_HOST") <> None
        \/ MCPConfig.getenv env (str "MCP_SERVER_PORT") <> None ->
        Spec.has_section loaded (str "server"))
       /\ (MCPConfig.getenv env (str "MCP_EXECUTABLE_PATH") <> None
           \/ MCPConfig.getenv env (str "MCP_WORKING_DIR") <> None ->
           Spec.has_section loaded (str "mcp"))
       /\ (forall v,
             MCPConfig.getenv env (str "MCP_SERVER_PORT") = Some v ->
             exists port, int v = Ok port)).
Proof.
  split.
  - intros (config & H).
    destruct (overrides_inv _ _ _ _ H) as (c1 & c2 & c3 & S1 & S2 & S3 & S4).
    apply override_went_through in S1 as (N1 & I1).
    apply override_went_through in S3 as (N3 & I3).
    apply override_went_through in S4 as (N4 & I4).
    assert (P : (MCPConfig.getenv env (str "MCP_SERVER_PORT") <> None ->
                 Spec.has_section c1 (str "server"))
                /\ (forall other,
                      Spec.has_section c2 other <-> Spec.has_section c1 other)
                /\ forall v,
                     MCPConfig.getenv env (str "MCP_SERVER_PORT") = Some v ->
                     exists port, int v = Ok port).
    { destruct (MCPConfig.getenv env (str "MCP_SERVER_PORT")) as [p|].
      - destruct S2 as (n & I & S2). split; [|split].
        + intros _. apply (set_nested_section _ _ _ _ _ S2).
        + intros other. apply (set_nested_sections _ _ _ _ _ _ S2).
        + intros v [= <-]. eauto.
      - subst c2. split; [congruence|]. split; [reflexivity|]. discriminate. }
    destruct P as (N2 & I2 & P).
    split; [|split; [|exact P]].
    + intros [A|A]; [apply N1; exact A | apply I1, N2; exact A].
    + intros [A|A];
        [apply I1, I2, N3; exact A | apply I1, I2, I3, N4; exact A].
  - intros (Hs & Hm & Hp). unfold MCPConfig._apply_env_overrides.
    destruct (override_goes_through env (str "MCP_SERVER_HOST") loaded
                (str "server") (str "host")) as (c1 & -> & I1); [auto|].
    cbn [rbind].
    assert (P : exists c2,
               match MCPConfig.getenv env (str "MCP_SERVER_PORT") with
               | Some v =>
                   (port <- int v ;;
                    MCPConfig.set_nested c1 (str "server") (str "port")
                      (VInt port))%py
               | None => Ok c1
               end = Ok c2
               /\ forall other,
                    Spec.has_section c2 other <-> Spec.has_section c1 other).
    { destruct (MCPConfig.getenv env (str "MCP_SERVER_PORT")) as [p|].
      - destruct (Hp p eq_refl) as (n & ->). cbn [rbind].
        destruct (set_nested_defined c1 (str "server") (str "port") (VInt n))
          as (c & E); [apply I1, Hs; right; discriminate|].
        exists c. split; [exact E|]. intros other.
        apply (set_nested_sections _ _ _ _ _ _ E).
      - exists c1. split; reflexivity. }
    destruct P as (c2 & -> & I2). cbn [rbind].
    destruct (override_goes_through env (str "MCP_EXECUTABLE_PATH") c2
                (str "mcp") (str "executable_path")) as (c3 & -> & I3);
      [intros A; apply I2, I1, Hm; left; exact A|].
    cbn [rbind].
    destruct (override_goes_through env (str "MCP_WORKING_DIR") c3
                (str "mcp") (str "working_directory")) as (c4 & -> & I4);
      [intros A; apply I3, I2, I1, Hm; right; exact A|].
    eauto.
Qed.

(** X6.  A port variable that [int] rejects makes the construction raise
    the error of [int]: always when the host variable is not set or the
    loaded configuration has a [server] section, and so whenever the
    configuration file is missing or unreadable. *)
Theorem port_must_be_an_integer (int : pystr -> result Z)
    (env : MCPConfig.environ) (v : pystr) (e : exn) :
  MCPConfig.getenv env (str "MCP_SERVER_PORT") = Some v ->
  int v = Raise e ->
  (forall loaded,
      MCPConfig.getenv env (str "MCP_SERVER_HOST") = None
      \/ Spec.has_section loaded (str "server") ->
      MCPConfig._apply_env_overrides int env loaded = Raise e)
  /\ (forall missing, MCPConfig.__init__ int (Raise missing) env = Raise e).
Proof.
  intros Hp Hi.
  assert (A : forall loaded,
             MCPConfig.getenv env (str "MCP_SERVER_HOST") = None
             \/ Spec.has_section loaded (str "server") ->
             MCPConfig._apply_env_overrides int env loaded = Raise e).
  { intros loaded H. unfold MCPConfig._apply_env_overrides. rewrite Hp, Hi.
    destruct (MCPConfig.getenv env (str "MCP_SERVER_HOST")) as [h|].
    - destruct H as [H|H]; [discriminate H|].
      destruct (set_nested_defined loaded (str "server") (str "host") (VStr h) H)
        as (c & ->).
      reflexivity.
    - reflexivity. }
  split; [exact A|].
  intros missing. unfold MCPConfig.__init__.
  replace (MCPConfig._load_config (Raise missing))
    with (Ok (A:=value) MCPConfig._default_config)
    by (destruct missing; reflexivity).
  cbn [rbind]. apply A. right. eexists _, _. split; reflexivity.
Qed.

(** No configuration file, and a port that is no number. *)
Lemma port_must_be_an_integer_witness :
  MCPConfig.__init__ Demo.decimal_int
    (Raise (FileNotFoundError
              (str "[Errno 2] No such file or directory: 'config.yaml'")))
    [(str "MCP_SERVER_PORT", str "80a")]
  = Raise (ValueError (str "invalid literal for int() with base 10: '80a'")).
Proof.
  apply (proj2 (port_must_be_an_integer Demo.decimal_int
                  [(str "MCP_SERVER_PORT", str "80a")] (str "80a")
                  (ValueError
                     (str "invalid literal for int() with base 10: '80a'"))
                  eq_refl eq_refl)).
Defined.

(** ** The entry point *)



(** ** The constructor of the backend, further *)



(** X9.  On a file system whose [resolve] gives absolute paths, a backend
    that was constructed holds an absolute working directory and an
    absolute executable path, the executable existed when it was
    constructed, and its timeout is what the configuration gives under
    [mcp.timeout], 30 when it gives nothing. *)
Theorem constructed_backend_paths (fs : filesystem) (config_ : value)
    (backend : t) :
  (forall p, is_absolute (resolve fs p) = true) ->
  MCPBackend.__init__ fs config_ = Ok backend ->
  is_absolute (working_directory backend) = true
  /\ is_absolute (executable_path backend) = true
  /\ exists_ fs (executable_path backend) = true
  /\ timeout backend = MCPConfig.get config_ (str "mcp.timeout") (VInt 30).
Proof.
  intros R H. unfold MCPBackend.__init__ in H.
  destruct (Path_of (MCPConfig.get config_ (str "mcp.working_directory") _))
    as [wd|]; [|discriminate H].
  cbn [rbind] in H.
  destruct (Path_of (MCPConfig.get config_ (str "mcp.executable_path") _))
    as [exe|]; [|discriminate H].
  cbn [rbind] in H.
  match type of H with
  | (if negb (exists_ fs ?p) then _ else _) = _ =>
      destruct (exists_ fs p) eqn:E; [|discriminate H]
  end.
  cbn [negb] in H. injection H as <-.
  cbn [working_directory executable_path timeout].
  split; [apply R|]. split; [|split; [exact E | reflexivity]].
  destruct (is_absolute exe) eqn:A; [exact A|].
  unfold joinpath. rewrite A. unfold is_absolute at 1. cbn [root].
  apply R.
Qed.

(** The backend of the default configuration. *)
Lemma constructed_backend_paths_witness :
  is_absolute (working_directory Demo.backend) = true
  /\ is_absolute (executable_path Demo.backend) = true
  /\ exists_ Demo.disk (executable_path Demo.backend) = true
  /\ timeout Demo.backend
     = MCPConfig.get MCPConfig._default_config (str "mcp.timeout") (VInt 30).
Proof.
  apply (constructed_backend_paths Demo.disk MCPConfig._default_config
           Demo.backend).
  - intros p. cbn [resolve Demo.disk]. unfold joinpath.
    destruct (is_absolute p) eqn:A; [exact A | reflexivity].
  - reflexivity.
Defined.

(** ** [call_mcp_tool], method by method *)

(** What [dispatch] comes to: an operation that leaves the world alone, or
    one invocation of the backend. *)
Lemma dispatch_run (self : t) (method : pystr) (params : option Params) :
  (exists r, forall w, run (dispatch self method params) w = (r, []))
  \/ (exists request_type,
        forall w,
          run (dispatch self method params) w
          = (Spec.answer request_type w, Spec.invocation_trace self w)).
Proof.
  unfold dispatch.
  destruct (str_eqb method (str "tools/list")).
  { right. exists (str "tools/list"). apply get_tools_list_run. }
  destruct (str_eqb method (str "tools/get_schema")).
  { left. destruct (match params with Some p => name p | None => None end)
      as [[|c n]|]; cbn [_get_tool_schema nonempty negb];
      [eexists; reflexivity | | eexists; reflexivity].
    destruct (dict_get (c :: n) schemas); eexists; reflexivity. }
  destruct (str_eqb method (str "tools/call")).
  { destruct (match params with Some p => name p | None => None end)
      as [[|c n]|] eqn:E.
    - left. eexists. intros w. apply execute_tool_unnamed. reflexivity.
    - right. exists (str "tools/call"). intros w. apply execute_tool_run.
      discriminate.
    - left. eexists. intros w. apply execute_tool_unnamed. reflexivity. }
  left. eexists. reflexivity.
Qed.

(** X10.  A method that is none of the three is answered with the failure
    "Unknown method" and the method, and nothing is spawned; the generic
    request endpoint answers it with status 200 and that failure. *)
Theorem unknown_method (self : t) (method : pystr) (params : option Params)
    (w : world) :
  ~ In method Notions.methods ->
  run (call_mcp_tool self method params) w
  = (Ok (failure (ValueError (str "Unknown method: " ++ method))), [])
  /\ run (Routes.mcp_request self
            {| Routes.method := method; Routes.params := params |}) w
     = (Ok {| Routes.status_code := 200;
              Routes.content :=
                failure (ValueError (str "Unknown method: " ++ method)) |}, []).
Proof.
  intros H.
  assert (D : run (dispatch self method params) w
              = (Raise (ValueError (str "Unknown method: " ++ method)), [])).
  { unfold dispatch.
    destruct (str_eqb method (str "tools/list")) eqn:E1;
      [apply str_eqb_eq in E1; exfalso; apply H; subst; simpl; auto|].
    destruct (str_eqb method (str "tools/get_schema")) eqn:E2;
      [apply str_eqb_eq in E2; exfalso; apply H; subst; simpl; auto|].
    destruct (str_eqb method (str "tools/call")) eqn:E3;
      [apply str_eqb_eq in E3; exfalso; apply H; subst; simpl; auto|].
    reflexivity. }
  split.
  - rewrite call_mcp_tool_run, D. reflexivity.
  - unfold Routes.mcp_request. cbn [Routes.method Routes.params].
    rewrite route_run, D. reflexivity.
Qed.

(** A method that does not exist, while the backend would time out. *)
Lemma unknown_method_witness :
  run (call_mcp_tool Demo.backend (str "tools/delete") None) TimesOut
  = (Ok (failure (ValueError (str "Unknown method: tools/delete"))), []).
Proof.
  apply (proj1 (unknown_method Demo.backend (str "tools/delete") None TimesOut
                  ltac:(intros H; vm_compute in H; intuition discriminate))).
Defined.

(** X11.  A request to call a tool, or to describe one, that carries no
    name (no params, no name among them, a null or an empty name) is
    answered with the failure "Tool name is required" before anything is
    spawned. *)
Theorem call_without_a_name (self : t) (params : option Params) (w : world) :
  given (Notions.name_of params) = false ->
  run (call_mcp_tool self (str "tools/call") params) w
  = (Ok (failure (ValueError (str "Tool name is required"))), [])
  /\ run (call_mcp_tool self (str "tools/get_schema") params) w
     = (Ok (failure (ValueError (str "Tool name is required"))), []).
Proof.
  intros H. rewrite !call_mcp_tool_run. unfold dispatch.
  change (str_eqb (str "tools/call") (str "tools/list")) with false.
  change (str_eqb (str "tools/call") (str "tools/get_schema")) with false.
  change (str_eqb (str "tools/call") (str "tools/call")) with true.
  change (str_eqb (str "tools/get_schema") (str "tools/list")) with false.
  change (str_eqb (str "tools/get_schema") (str "tools/get_schema")) with true.
  cbv iota. fold (Notions.name_of params).
  rewrite execute_tool_unnamed by exact H.
  destruct (Notions.name_of params) as [[|c n]|]; try discriminate H;
    split; reflexivity.
Qed.

(** A call with an empty name and no arguments. *)
Lemma call_without_a_name_witness :
  run (call_mcp_tool Demo.backend (str "tools/call")
         (Some {| name := Some []; arguments := Some (VDict []) |}))
      (Exits 0 [] [])
  = (Ok (failure (ValueError (str "Tool name is required"))), []).
Proof.
  apply (proj1 (call_without_a_name Demo.backend
                  (Some {| name := Some []; arguments := Some (VDict []) |})
                  (Exits 0 [] []) eq_refl)).
Defined.

Lemma invocation_trace_kill (self : t) (w : world) :
  In Kill (Spec.invocation_trace self w)
  <-> exists m, w = WaitRaises (TimeoutError m).
Proof.
  split.
  - destruct w as [e|e|rc out err]; [| destruct e |]; simpl; intros H;
      repeat (destruct H as [H|H]; try discriminate H); try contradiction;
      eauto.
  - intros (m & ->). simpl. auto.
Qed.

(** X12.  What a call of [call_mcp_tool] asks of the operating system, for
    every method and every params: nothing, or the one invocation of the
    backend.  A process is killed exactly when it was spawned and the wait
    timed out; when the spawn fails nothing is awaited; when the wait
    raises anything but a timeout the process is not killed and the
    exception is answered as a failure. *)
Theorem kill_only_on_timeout (self : t) (method : pystr)
    (params : option Params) (w : world) :
  let trace := snd (run (call_mcp_tool self method params) w) in
  (trace = [] \/ trace = Spec.invocation_trace self w)
  /\ (In Kill trace
      <-> trace <> [] /\ exists m, w = WaitRaises (TimeoutError m))
  /\ (forall e, w = SpawnFails e -> forall t, ~ In (WaitFor t) trace)
  /\ (forall e,
        w = WaitRaises e ->
        (forall m, e <> TimeoutError m) ->
        trace <> [] ->
        run (call_mcp_tool self method params) w
        = (Ok (failure e),
           [Spawn (Spec.invocation self); WaitFor (timeout self)])).
Proof.
  intros trace. subst trace. rewrite call_mcp_tool_run. cbn [snd].
  destruct (dispatch_run self method params) as [(r & D)|(rt & D)]; rewrite D;
    cbn [fst snd].
  - split; [auto|]. split; [|split].
    + split; [contradiction | intros (A & _); congruence].
    + intros e _ t0 A. contradiction.
    + intros e _ _ A. congruence.
  - split; [auto|]. split; [|split].
    + rewrite invocation_trace_kill. split; [|tauto].
      intros (m & ->). split; [discriminate | eauto].
    + intros e -> t0 A. simpl in A.
      destruct A as [A|A]; [discriminate A | exact A].
    + intros e -> Hne _. destruct e; try reflexivity.
      exfalso. eapply Hne. reflexivity.
Qed.

(** A listing while the pipe to the backend breaks. *)
Lemma kill_only_on_timeout_witness :
  run (call_mcp_tool Demo.backend (str "tools/list") None)
      (WaitRaises Cases.broken_pipe)
  = (Ok (failure Cases.broken_pipe),
     [Spawn (Spec.invocation Demo.backend); WaitFor (timeout Demo.backend)]).
Proof.
  apply (proj2 (proj2 (proj2 (kill_only_on_timeout Demo.backend
                                (str "tools/list") None
                                (WaitRaises Cases.broken_pipe))))
           _ eq_refl).
  - intros m. discriminate.
  - discriminate.
Defined.

(** X13.  When the backend exits with status zero only its output counts:
    the error stream plays no part in the answer, and an output that is no
    UTF-8 is answered with the decoding error as a failure, not with the
    fallback.  When it exits with another status the output plays no
    part. *)
Theorem exit_zero_reads_stdout_only (self : t) (method : pystr)
    (params : option Params) (out : bytes) :
  (forall err err',
      run (call_mcp_tool self method params) (Exits 0 out err)
      = run (call_mcp_tool self method params) (Exits 0 out err'))
  /\ (forall err e,
        decode out = Raise e ->
        snd (run (call_mcp_tool self method params) (Exits 0 out err)) <> [] ->
        fst (run (call_mcp_tool self method params) (Exits 0 out err))
        = Ok (failure e))
  /\ (forall rc out' err,
        rc <> 0%Z ->
        run (call_mcp_tool self method params) (Exits rc out err)
        = run (call_mcp_tool self method params) (Exits rc out' err)).
Proof.
  split; [|split].
  - intros err err'. rewrite !call_mcp_tool_run.
    destruct (dispatch_run self method params) as [(r & D)|(rt & D)];
      rewrite !D; reflexivity.
  - intros err e De. rewrite call_mcp_tool_run. cbn [fst snd].
    destruct (dispatch_run self method params) as [(r & D)|(rt & D)];
      rewrite !D; cbn [fst snd]; [congruence|].
    intros _. cbn [Spec.answer Z.eqb]. rewrite De. reflexivity.
  - intros rc out' err Hrc. apply Z.eqb_neq in Hrc. rewrite !call_mcp_tool_run.
    destruct (dispatch_run self method params) as [(r & D)|(rt & D)];
      rewrite !D; [reflexivity|].
    cbn [Spec.answer Spec.invocation_trace fst snd]. rewrite Hrc. reflexivity.
Qed.

(** A backend that exits with status zero after the single byte 0xFF. *)
Lemma exit_zero_reads_stdout_only_witness :
  fst (run (call_mcp_tool Demo.backend (str "tools/list") None)
         (Exits 0 [xff] []))
  = Ok (failure (UnicodeDecodeError
          (str "'utf-8' codec can't decode byte 0xff in position 0: invalid start byte"))).
Proof.
  apply (proj1 (proj2 (exit_zero_reads_stdout_only Demo.backend
                         (str "tools/list") None [xff]))).
  - reflexivity.
  - discriminate.
Defined.

(** ** The scraper, further *)

Lemma scan_lines_app (request_type : pystr) (lines more : list pystr)
    (v : value) :
  forall in_json json_lines,
    scan_lines request_type lines in_json json_lines = Ok (Some v) ->
    scan_lines request_type (lines ++ more) in_json json_lines = Ok (Some v).
Proof.
  induction lines as [|line lines IH]; intros in_json json_lines H;
    [discriminate H|].
  cbn [scan_lines app] in *.
  destruct (startswith (strip line) (str "{")); [apply IH; exact H|].
  destruct in_json; [|apply IH; exact H].
  destruct (endswith (strip line) (str "}")
            && _is_complete_json (join [] (json_lines ++ [line])));
    [|apply IH; exact H].
  destruct (Json.loads (join [] (json_lines ++ [line]))) as [r|];
    [|apply IH; exact H].
  destruct (is_listing request_type r) as [[|]|]; cbn [rbind] in *;
    try exact H.
  destruct (is_call_result request_type r) as [[|]|]; cbn [rbind] in *;
    try exact H.
  apply IH. exact H.
Qed.







(** X16.  The first block that is found wins, and the log around it does
    not count: once the loop has found a block in an output, the scraper
    returns that block whatever further lines follow the output; and lines
    before the output, none of which opens with a brace, change nothing to
    what the scraper returns. *)
Theorem scraper_ignores_the_surroundings (request_type : pystr) :
  (forall output more v,
      scan_lines request_type (Py.split output 10) false [] = Ok (Some v) ->
      _extract_json_from_output (output ++ 10 :: more) request_type = Ok v
      /\ _extract_json_from_output output request_type = Ok v)
  /\ (forall log output,
        Forall (fun line => Spec.opens line = false) (Py.split log 10) ->
        _extract_json_from_output (log ++ 10 :: output) request_type
        = _extract_json_from_output output request_type).
Proof.
  split.
  - intros output more v H. unfold _extract_json_from_output.
    rewrite split_line, (scan_lines_app _ _ _ v _ _ H), H. split; reflexivity.
  - intros log output F. unfold _extract_json_from_output.
    rewrite split_line, scan_lines_skip by exact F. reflexivity.
Qed.

(** One more line of log before the listing of six tools. *)
Lemma scraper_ignores_the_surroundings_witness :
  _extract_json_from_output
    (str "ExprPredictor MCP demo" ++ 10 :: Demo.spread_listing)
    (str "tools/list")
  = _extract_json_from_output Demo.spread_listing (str "tools/list").
Proof.
  apply (proj2 (scraper_ignores_the_surroundings (str "tools/list"))).
  repeat constructor.
Defined.

Lemma scan_lines_discard (request_type : pystr) (gathered : list pystr)
    (last : pystr) (rest : list pystr) (block : value) :
  Spec.gathering true gathered ->
  Spec.opens last = false ->
  Spec.closes last = true ->
  Json.loads (join [] (gathered ++ [last])) = Some block ->
  ~ Spec.qualifies request_type block ->
  scan_lines request_type (last :: rest) true gathered
  = scan_lines request_type rest false [].
Proof.
  intros G Ho Hc L Q. cbn [scan_lines].
  unfold Spec.opens in Ho. unfold Spec.closes in Hc. rewrite Ho, Hc.
  unfold _is_complete_json. rewrite L. cbn [andb].
  destruct (gathered_is_dict (gathered ++ [last]) block) as (d & ->);
    [apply gathering_append; exact G | exact L |].
  destruct (is_listing_dict request_type d) as (b1 & E1).
  destruct (is_call_result_dict request_type d) as (b2 & E2).
  rewrite E1. cbn [rbind].
  destruct b1; [exfalso; apply Q; left; exact E1|].
  rewrite E2. cbn [rbind].
  destruct b2; [exfalso; apply Q; right; exact E2|].
  reflexivity.
Qed.

(** X17.  A block that is complete but not of the shape asked for is
    passed over, and the scan resumes after it: when the output has, after
    lines that open nothing, a line that opens with a brace and further
    lines, none opening another, the last closing with a brace, which
    together parse but do not qualify, the scraper returns what it returns
    for the lines after that block alone. *)
Theorem unqualified_block_is_passed_over (request_type : pystr)
    (output : pystr) (before : list pystr) (first : pystr)
    (middle : list pystr) (last : pystr) (rest : list pystr) (block : value) :
  Py.split output 10 = before ++ first :: middle ++ last :: rest ->
  Forall (fun l => Spec.opens l = false) before ->
  Spec.opens first = true ->
  Forall (fun l => Spec.opens l = false) (middle ++ [last]) ->
  Spec.closes last = true ->
  Json.loads (join [] (first :: middle ++ [last])) = Some block ->
  ~ Spec.qualifies request_type block ->
  scan_lines request_type (Py.split output 10) false []
  = scan_lines request_type rest false []
  /\ _extract_json_from_output output request_type
     = _extract_json_from_output (join [10] rest) request_type.
Proof.
  intros Hs Fb Hf Fm Hc L Q.
  apply Forall_app in Fm as [Fm Fl]. inversion Fl as [|? ? Hl _]; subst.
  assert (P : forall m1 l m2,
             middle = m1 ++ l :: m2 ->
             Spec.closes l = true ->
             Json.loads (join [] (first :: [] ++ m1 ++ [l])) = None).
  { intros m1 l m2 -> _. eapply first_completion; eassumption. }
  assert (S : scan_lines request_type (Py.split output 10) false []
              = scan_lines request_type rest false []).
  { rewrite Hs, scan_lines_skip by assumption.
    cbn [scan_lines]. unfold Spec.opens in Hf. rewrite Hf.
    rewrite (scan_lines_gather _ first (last :: rest) middle []) by assumption.
    apply (scan_lines_discard _ _ _ _ block); try assumption.
    intros _. eexists _, _. split; [reflexivity | exact Hf]. }
  split; [exact S|].
  unfold _extract_json_from_output. rewrite S.
  destruct rest as [|r rest]; [reflexivity|].
  rewrite split_join; [reflexivity | | discriminate].
  pose proof (split_pieces output 10) as F. rewrite Hs in F.
  apply Forall_app in F as [_ F]. inversion F as [|? ? _ F']; subst.
  apply Forall_app in F' as [_ F']. inversion F'; subst. assumption.
Qed.

(** A listing request on an output that reports a success before it
    prints the listing: the listing is what comes back. *)
Lemma unqualified_block_is_passed_over_witness :
  _extract_json_from_output Cases.report_then_listing (str "tools/list")
  = _extract_json_from_output (join [10] Demo.listing_block) (str "tools/list").
Proof.
  apply (proj2 (unqualified_block_is_passed_over (str "tools/list")
                  Cases.report_then_listing [] (str "{")
                  [Demo.dq "  'success': true"] (str "}") Demo.listing_block
                  (VDict [(str "success", VBool true)])
                  ltac:(vm_compute; reflexivity)
                  ltac:(constructor)
                  eq_refl
                  ltac:(repeat constructor)
                  eq_refl
                  ltac:(vm_compute; reflexivity)
                  ltac:(intros [Q|Q]; vm_compute in Q; discriminate Q))).
Defined.

(** X18.  A gathered text is complete at most once.  When a text that
    opens with a brace is complete for [_is_complete_json], it parses to a
    dictionary, and no longer text that adds to it anything but blanks,
    tabs, newlines and carriage returns is complete. *)
Theorem complete_block_cannot_grow (line rest more : pystr) :
  Spec.opens line = true ->
  _is_complete_json (line ++ rest) = true ->
  (exists d, Json.loads (line ++ rest) = Some (VDict d))
  /\ (Exists (fun c => Json.is_ws c = false) more ->
      _is_complete_json ((line ++ rest) ++ more) = false).
Proof.
  intros Ho Hc. unfold _is_complete_json in *.
  destruct (Json.loads (line ++ rest)) as [v|] eqn:L; [|discriminate Hc].
  destruct (loads_object _ _ _ Ho L) as (d & ->).
  split; [eauto|].
  intros E. apply Exists_exists in E as (c & I & W).
  rewrite (loads_extend _ more _ L); [reflexivity | reflexivity |].
  apply (skip_ws_in c); assumption.
Qed.

(** An empty object, and one closing brace too many. *)
Lemma complete_block_cannot_grow_witness :
  _is_complete_json ((str "{" ++ str "}") ++ str "}") = false.
Proof.
  apply (proj2 (complete_block_cannot_grow (str "{") (str "}") (str "}")
                  eq_refl eq_refl)).
  constructor. reflexivity.
Defined.

(** ** The two tables *)

Lemma dict_get_some_in (k : pystr) (v : value) (d : dict) :
  dict_get k d = Some v -> In (k, v) d.
Proof.
  induction d as [|[k' v'] d IH]; simpl; [discriminate|].
  destruct (str_eqb k k') eqn:E.
  - apply str_eqb_eq in E. intros [= <-]. subst. auto.
  - auto.
Qed.

Lemma get_tool_schema_inv (self : t) (tool_name : option pystr) (w : world)
    (schema_ : value) (trace : list event) :
  run (_get_tool_schema self tool_name) w = (Ok schema_, trace) ->
  exists name_,
    tool_name = Some name_ /\ dict_get name_ schemas = Some schema_.
Proof.
  destruct tool_name as [[|c n]|]; unfold run, _get_tool_schema;
    cbn [nonempty negb]; try discriminate.
  destruct (dict_get (c :: n) schemas) as [s|] eqn:E; [|discriminate].
  intros [= <- _]. eauto.
Qed.

(** X19.  The fallback listing and the schema table agree: every tool the
    fallback listing names can be described, and its schema carries the
    same name and the same description; every schema that can be looked up
    is that of a tool the fallback listing names, with the same
    description. *)
Theorem fallback_listing_matches_the_table (self : t) (w : world) :
  (forall entry,
      In entry (Notions.tools_of default_tools) ->
      exists name_ description schema_,
        Notions.descriptor entry = Some (name_, description)
        /\ run (_get_tool_schema self (Some name_)) w = (Ok schema_, [])
        /\ Notions.descriptor schema_ = Some (name_, description))
  /\ (forall tool_name schema_,
        run (_get_tool_schema self tool_name) w = (Ok schema_, []) ->
        exists name_ description entry,
          tool_name = Some name_
          /\ In entry (Notions.tools_of default_tools)
          /\ Notions.descriptor entry = Some (name_, description)
          /\ Notions.descriptor schema_ = Some (name_, description)).
Proof.
  split.
  - intros entry H. cbn in H.
    repeat (destruct H as [<-|H];
            [eexists _, _, _; split; [reflexivity|]; split; reflexivity|]).
    contradiction.
  - intros tool_name schema_ H.
    destruct (get_tool_schema_inv _ _ _ _ _ H) as (n & -> & G).
    apply dict_get_some_in in G.
    assert (A : exists description,
               Notions.descriptor schema_ = Some (n, description)
               /\ Exists (fun entry =>
                            Notions.descriptor entry = Some (n, description))
                         (Notions.tools_of default_tools)).
    { cbn in G.
      repeat (destruct G as [[= <- <-]|G];
              [eexists; split; [reflexivity|];
               repeat first [ apply Exists_cons_hd; reflexivity
                            | apply Exists_cons_tl ]|]).
      contradiction. }
    destruct A as (description & D & E).
    apply Exists_exists in E as (entry & I & E). eauto 10.
Qed.

(** X20.  Every schema the lookup returns is well formed: it carries the
    name it was asked under, it requires at least one field, every field
    it requires is declared among its properties, and no property is
    declared twice. *)
Theorem schemas_are_well_formed (self : t) (tool_name : option pystr)
    (w : world) (schema_ : value) :
  run (_get_tool_schema self tool_name) w = (Ok schema_, []) ->
  exists name_ description required,
    tool_name = Some name_
    /\ Notions.descriptor schema_ = Some (name_, description)
    /\ Spec.required_fields schema_ = Some required
    /\ required <> []
    /\ Forall (fun field =>
                 exists f, field = VStr f
                           /\ In f (Notions.declared_fields schema_))
              required
    /\ NoDup (Notions.declared_fields schema_).
Proof.
  intros H. destruct (get_tool_schema_inv _ _ _ _ _ H) as (n & -> & G).
  apply dict_get_some_in in G. cbn in G.
  repeat (destruct G as [[= <- <-]|G];
          [eexists _, _, _; split; [reflexivity|];
           split; [reflexivity|]; split; [reflexivity|];
           split; [discriminate|]; split;
           [repeat constructor; eexists; (split; [reflexivity|]); cbn; tauto
           |repeat constructor; cbn; intuition discriminate]|]).
  contradiction.
Qed.

(** The schema of [expr_predictor_train], which declares a field it does
    not require. *)
Lemma schemas_are_well_formed_witness :
  exists name_ description required,
    Some (str "expr_predictor_train") = Some name_
    /\ Notions.descriptor
         (Cases.schema_of (str "expr_predictor_train")) = Some (name_, description)
    /\ Spec.required_fields (Cases.schema_of (str "expr_predictor_train"))
       = Some required
    /\ required <> []
    /\ Forall (fun field =>
                 exists f,
                   field = VStr f
                   /\ In f (Notions.declared_fields
                              (Cases.schema_of (str "expr_predictor_train"))))
              required
    /\ NoDup (Notions.declared_fields (Cases.schema_of (str "expr_predictor_train"))).
Proof.
  apply (schemas_are_well_formed Demo.backend
           (Some (str "expr_predictor_train")) TimesOut).
  reflexivity.
Defined.

(** ** The routes, further *)

(** X21.  What [GET /health] answers, for every fate of the backend.  It
    never raises and asks of the operating system what the listing
    operation asks.  When the listing operation raised, the answer is the
    healthy one with no tool.  When it returned a dictionary, the answer
    is the healthy one with no tool if the dictionary has no "tools" entry,
    the healthy one with the length of that entry if it has a length, and
    otherwise status 503 with the unhealthy body that carries the
    [TypeError] of [len].  The status is 200 or 503. *)
Theorem health_check_statuses (backend : t) (w : world) :
  exists r,
    run (Routes.health_check backend) w
    = (Ok r, snd (run (_get_tools_list backend) w))
    /\ (forall e,
          fst (run (_get_tools_list backend) w) = Raise e ->
          r = Routes.returns (Spec.healthy 0))
    /\ (forall d,
          fst (run (_get_tools_list backend) w) = Ok (VDict d) ->
          match dict_get (str "tools") d with
          | None => r = Routes.returns (Spec.healthy 0)
          | Some tools =>
              if Notions.sized tools then
                exists n,
                  Routes.len tools = Ok n
                  /\ r = Routes.returns (Spec.healthy n)
              else
                r = Routes.JSONResponse 503
                      (Notions.unhealthy
                         (TypeError (str "object of type '" ++ type_name tools
                                     ++ str "' has no len()")))
          end)
    /\ (Routes.status_code r = 200%Z \/ Routes.status_code r = 503%Z).
Proof.
  rewrite health_check_run, get_tools_list_run. cbn [fst snd].
  eexists. split; [reflexivity|].
  destruct (Spec.answer (str "tools/list") w) as [listing|e] eqn:A.
  - destruct (answer_is_dict _ _ _ A) as (d & ->).
    cbn [Routes.py_get rbind].
    split; [intros e E; discriminate E|]. split.
    + intros d' [= <-].
      destruct (dict_get (str "tools") d) as [tools|]; [|reflexivity].
      destruct tools; cbn [Notions.sized Routes.len]; try reflexivity; eauto.
    + destruct (dict_get (str "tools") d) as [tools|]; [|left; reflexivity].
      destruct tools; cbn [Routes.len]; auto.
  - split; [reflexivity|]. split; [intros d E; discriminate E|].
    left. reflexivity.
Qed.

(** X22.  [GET /tools/schema/{name}] spawns nothing and always answers
    with status 200: with the schema when the name is in the table, which
    it is exactly for the six known tools, and otherwise with a failure
    body, "Unknown tool" and the name, or "Tool name is required" for the
    empty name. *)
Theorem schema_route (backend : t) (tool_name : pystr) (w : world) :
  run (Routes.get_tool_schema backend tool_name) w
  = (Ok (Routes.returns
           match dict_get tool_name schemas with
           | Some schema_ => schema_
           | None =>
               failure
                 (ValueError
                    (if nonempty tool_name
                     then str "Unknown tool: " ++ tool_name
                     else str "Tool name is required"))
           end), [])
  /\ (dict_get tool_name schemas <> None <-> In tool_name Spec.known_tools).
Proof.
  split.
  - unfold Routes.get_tool_schema. rewrite route_run. unfold dispatch.
    change (str_eqb (str "tools/get_schema") (str "tools/list")) with false.
    change (str_eqb (str "tools/get_schema") (str "tools/get_schema"))
      with true.
    cbv iota. cbn [name]. unfold run, _get_tool_schema.
    destruct tool_name as [|c n]; [reflexivity|]. cbn [nonempty negb].
    destruct (dict_get (c :: n) schemas); reflexivity.
  - rewrite dict_get_in, schemas_names. reflexivity.
Qed.

(** X23.  The three dedicated routes answer as the generic request
    endpoint does for the method they stand for, and ask the same of the
    operating system: the listing route as a "tools/list" request with any
    params, the schema route as a "tools/get_schema" request with the name,
    the call route as a "tools/call" request with the name and any
    arguments. *)
Theorem routes_are_requests (backend : t) (w : world) :
  (forall params,
      run (Routes.list_tools backend) w
      = run (Routes.mcp_request backend
               {| Routes.method := str "tools/list";
                  Routes.params := params |}) w)
  /\ (forall tool_name arguments_,
        run (Routes.get_tool_schema backend tool_name) w
        = run (Routes.mcp_request backend
                 {| Routes.method := str "tools/get_schema";
                    Routes.params :=
                      Some {| name := Some tool_name;
                              arguments := arguments_ |} |}) w)
  /\ (forall tool_name arguments_ other,
        run (Routes.call_tool backend tool_name arguments_) w
        = run (Routes.mcp_request backend
                 {| Routes.method := str "tools/call";
                    Routes.params :=
                      Some {| name := Some tool_name;
                              arguments := other |} |}) w).
Proof.
  unfold Routes.list_tools, Routes.get_tool_schema, Routes.call_tool,
    Routes.mcp_request.
  cbn [Routes.method Routes.params].
  split; [|split]; intros; rewrite !route_run; reflexivity.
Qed.



(** X25.  Output that is no JSON is masked.  When the backend exits with
    status zero and no line of its output opens with a brace, [GET
    /tools/list] answers with status 200 and the fallback listing, and [GET
    /health] with the healthy body and six tools. *)
Theorem unparseable_output_is_masked (backend : t) (out err : bytes)
    (output : pystr) :
  decode out = Ok output ->
  Forall (fun line => Spec.opens line = false) (Py.split output 10) ->
  fst (run (Routes.list_tools backend) (Exits 0 out err))
  = Ok (Routes.returns default_tools)
  /\ fst (run (Routes.health_check backend) (Exits 0 out err))
     = Ok (Routes.returns (Spec.healthy 6)).
Proof.
  intros D F.
  assert (E : _extract_json_from_output output (str "tools/list")
              = Ok default_tools).
  { unfold _extract_json_from_output.
    rewrite <- (app_nil_r (Py.split output 10)).
    rewrite scan_lines_skip by exact F. reflexivity. }
  split.
  - unfold Routes.list_tools. rewrite route_run. cbn [fst]. unfold dispatch.
    change (str_eqb (str "tools/list") (str "tools/list")) with true.
    cbv iota. rewrite get_tools_list_run. cbn [fst Spec.answer Z.eqb].
    rewrite D. cbn [rbind]. rewrite E. reflexivity.
  - rewrite health_check_run. cbn [fst Spec.answer Z.eqb].
    rewrite D. cbn [rbind]. rewrite E. reflexivity.
Qed.

(** A backend that prints one line of log and exits with status zero. *)
Lemma unparseable_output_is_masked_witness :
  fst (run (Routes.health_check Demo.backend)
         (Exits 0 (Demo.encode (str "ExprPredictor MCP demo")) []))
  = Ok (Routes.returns (Spec.healthy 6)).
Proof.
  apply (proj2 (unparseable_output_is_masked Demo.backend
                  (Demo.encode (str "ExprPredictor MCP demo")) []
                  (str "ExprPredictor MCP demo") eq_refl
                  ltac:(repeat constructor))).
Defined.
